(** * libsigrok message logging (src/log.c): a shallow embedding and its properties

    The file embeds the whole of log.c: the five static variables, the
    setters and getters, the default callback [sr_logv] and the six emission
    functions.  C [int]s are [Z]; C strings are [string]s read up to their
    first NUL; [stderr] and the calls of user callbacks are recorded, in
    order, in a list of events. *)

From Stdlib Require Import ZArith List Bool Ascii String Lia.
Import ListNotations.
Open Scope string_scope.
Open Scope Z_scope.

(** ** The constants of libsigrok.h *)

(** Modelled from the spec: libsigrok.h is not among the sources, so the
    constants log.c takes from it are a parameter of the development.  The
    spec gives their roles (a success code, an argument error, six levels
    ordered NONE < ERROR < WARN < INFO < DEBUG < SPEW, an empty option mask
    and five option flags), not their values. *)
Class libsigrok_h : Set := {
  SR_OK : Z;
  SR_ERR_ARG : Z;
  SR_LOG_NONE : Z;
  SR_LOG_ERR : Z;
  SR_LOG_WARN : Z;
  SR_LOG_INFO : Z;
  SR_LOG_DBG : Z;
  SR_LOG_SPEW : Z;
  SR_LOG_NOOPTS : Z;
  SR_LOG_DATE : Z;
  SR_LOG_TIME : Z;
  SR_LOG_TIME_MS : Z;
  SR_LOG_TIME_US : Z;
  SR_LOG_UTC : Z
}.

(** The values of upstream libsigrok's header (levels 0..5, SR_ERR_ARG = -3)
    with the option flags on the five lowest bits; the concrete header of
    the examples. *)
Definition upstream_h : libsigrok_h := {|
  SR_OK := 0;
  SR_ERR_ARG := -3;
  SR_LOG_NONE := 0;
  SR_LOG_ERR := 1;
  SR_LOG_WARN := 2;
  SR_LOG_INFO := 3;
  SR_LOG_DBG := 4;
  SR_LOG_SPEW := 5;
  SR_LOG_NOOPTS := 0;
  SR_LOG_DATE := 1;
  SR_LOG_TIME := 2;
  SR_LOG_TIME_MS := 4;
  SR_LOG_TIME_US := 8;
  SR_LOG_UTC := 16
|}.

(** ** C strings and character buffers *)

Definition NUL : ascii := Ascii.zero.

(** The C string held by a buffer: its bytes up to the first NUL. *)
Fixpoint c_str (buf : string) : string :=
  match buf with
  | EmptyString => EmptyString
  | String c rest => if Ascii.eqb c NUL then EmptyString else String c (c_str rest)
  end.

(** [snprintf(buf, size, "%s", src)]: at most [size - 1] bytes of the C
    string [src] are stored at the start of [buf], then a NUL; the bytes of
    [buf] after that NUL keep their value.  With [size = 0] nothing is
    stored. *)
Fixpoint snprintf_s (buf : string) (size : nat) (src : string) {struct size} : string :=
  match size, buf with
  | O, _ => buf
  | S _, EmptyString => EmptyString
  | S size', String b rest =>
      match size', src with
      | O, _ => String NUL rest
      | S _, EmptyString => String NUL rest
      | S _, String c src' =>
          if Ascii.eqb c NUL then String NUL rest
          else String c (snprintf_s rest size' src')
      end
  end.

(** A static [char] array of [n] bytes initialised with a string literal:
    the literal, then NULs up to [n] bytes. *)
Fixpoint char_array (n : nat) (init : string) : string :=
  match n with
  | O => EmptyString
  | S n' =>
      match init with
      | EmptyString => String NUL (char_array n' EmptyString)
      | String c init' => String c (char_array n' init')
      end
  end.

(** ** The fragment of printf and strftime that log.c uses *)

Definition digit (d : Z) : ascii := ascii_of_nat (48 + Z.to_nat d).

(** Decimal digits of a non-negative number, most significant first, in front
    of [acc].  Ten digits are enough for every 32-bit argument
    ([utoa_fuel]). *)
Fixpoint utoa (fuel : nat) (n : Z) (acc : string) : string :=
  match fuel with
  | O => acc
  | S fuel' =>
      let acc' := String (digit (n mod 10)) acc in
      if n / 10 =? 0 then acc' else utoa fuel' (n / 10) acc'
  end.

Fixpoint zeros (n : nat) : string :=
  match n with
  | O => EmptyString
  | S n' => String "0" (zeros n')
  end.

(** Field width with the [0] flag. *)
Definition zero_pad (width : nat) (s : string) : string :=
  zeros (width - String.length s) ++ s.

Definition fmt_u (n : Z) : string := utoa 10 n "".

Definition fmt_d (n : Z) : string :=
  if n <? 0 then String "-" (fmt_u (- n)) else fmt_u n.

(** The arguments of a variadic call. *)
Inductive va_arg : Set :=
| va_int (n : Z)
| va_uint (n : Z)
| va_str (s : string).

Definition va_list : Set := list va_arg.

Definition arg_text (width : nat) (a : option va_arg) : string :=
  match a with
  | Some (va_int n) => zero_pad width (fmt_d n)
  | Some (va_uint n) => zero_pad width (fmt_u n)
  | Some (va_str s) => c_str s
  | None => EmptyString
  end.

Definition width_of (c : ascii) : nat := nat_of_ascii c - 48.

Definition is_conv (c : ascii) : bool :=
  (Ascii.eqb c "d" || Ascii.eqb c "u" || Ascii.eqb c "s")%bool.

(** The text printf renders from a format and its arguments.  The directives
    are the ones log.c itself uses: [%d], [%u], [%s], and [%0Wu] / [%0Wd]
    with a one-digit width [W]; [%%] is a percent sign.  Any other directive
    is outside this model and is copied as it stands. *)
Fixpoint vformat (format : string) (args : va_list) : string :=
  match format with
  | EmptyString => EmptyString
  | String c rest =>
      if Ascii.eqb c "%" then
        match rest with
        | String d rest1 =>
            if is_conv d then arg_text 0 (hd_error args) ++ vformat rest1 (tl args)
            else if Ascii.eqb d "%" then String "%" (vformat rest1 args)
            else if Ascii.eqb d "0" then
              match rest1 with
              | String w (String d2 rest3) =>
                  if is_conv d2
                  then arg_text (width_of w) (hd_error args) ++ vformat rest3 (tl args)
                  else String c (String d (String w (String d2 (vformat rest3 args))))
              | _ => String c (String d (vformat rest1 args))
              end
            else String c (String d (vformat rest1 args))
        | EmptyString => String c EmptyString
        end
      else String c (vformat rest args)
  end.

(** [struct tm], the fields log.c prints. *)
Record tm : Set := {
  tm_year : Z;
  tm_mon : Z;
  tm_mday : Z;
  tm_hour : Z;
  tm_min : Z;
  tm_sec : Z
}.

Definition two_digits (n : Z) : string := zero_pad 2 (fmt_u n).

Definition strftime_conv (c : ascii) (t : tm) : string :=
  if Ascii.eqb c "Y" then fmt_d (1900 + tm_year t)
  else if Ascii.eqb c "m" then two_digits (1 + tm_mon t)
  else if Ascii.eqb c "d" then two_digits (tm_mday t)
  else if Ascii.eqb c "H" then two_digits (tm_hour t)
  else if Ascii.eqb c "M" then two_digits (tm_min t)
  else if Ascii.eqb c "S" then two_digits (tm_sec t)
  else String "%" (String c EmptyString).

(** The text strftime stores for a format.  log.c uses ["%Y%m%d "] and
    ["%H%M%S"]; with [int] fields neither overflows the 30-byte buffer. *)
Fixpoint strftime (format : string) (t : tm) : string :=
  match format with
  | EmptyString => EmptyString
  | String c rest =>
      if Ascii.eqb c "%" then
        match rest with
        | String d rest1 => strftime_conv d t ++ strftime rest1 t
        | EmptyString => String c EmptyString
        end
      else String c (strftime rest t)
  end.

(** C integer division and remainder truncate towards zero; a cast to
    [guint] wraps modulo 2^32. *)
Definition c_div (a b : Z) : Z := Z.quot a b.
Definition c_rem (a b : Z) : Z := Z.rem a b.
Definition to_guint (x : Z) : Z := x mod 2 ^ 32.

(** ** The state of log.c, its environment and its effects *)

(** A non-null [sr_log_callback]: the built-in [sr_logv] or a function of the
    application, named by a number.  The argument of [sr_log_callback_set] is
    an [option] of it, [None] for a NULL pointer; the static [sr_log_cb]
    starts at [sr_logv] and is only ever assigned a non-null pointer. *)
Inductive sr_log_callback : Set :=
| cb_sr_logv
| cb_user (f : nat).

(** Data pointers ([void *]) are addresses; blocks of the g_malloc heap are
    named by their position in it. *)
Definition NULL : Z := 0.

(** The static variables of log.c and the heap [g_strdup] allocates in. *)
Record state : Set := {
  cur_loglevel : Z;
  cur_logopts : Z;
  sr_log_cb : sr_log_callback;
  sr_log_cb_data : Z;
  sr_log_domain : string;
  heap : list string
}.

Definition LOGDOMAIN_MAXLEN : nat := 30.
Definition LOGDOMAIN_DEFAULT : string := "sr: ".

(** What the rest of the process does: one write to [stderr], or one call of
    a callback of the application with the arguments it received. *)
Inductive event : Set :=
| ev_stderr (text : string)
| ev_call (f : nat) (cb_data : Z) (loglevel : Z) (format : string) (args : va_list).

(** What log.c asks of glib, libc and the application.  [dt_tm_unset] is the
    content of the local [dt_tm] when the conversion failed and left it
    unset.  A callback of the application is known by the value it returns;
    it is taken not to call back into log.c. *)
Record environment : Type := {
  g_get_real_time : Z;
  gmtime_r : Z -> option tm;
  localtime_r : Z -> option tm;
  dt_tm_unset : tm;
  errno : Z;
  strerror : Z -> string;
  user_cb : nat -> Z -> Z -> string -> va_list -> Z
}.

(** Computations over the state that record their events. *)
Definition M (A : Type) : Type := state -> A * state * list event.

Definition ret {A : Type} (a : A) : M A := fun s => (a, s, []%list).

Definition bind {A B : Type} (m : M A) (k : A -> M B) : M B :=
  fun s =>
    let '(a, s1, t1) := m s in
    let '(b, s2, t2) := k a s1 in
    (b, s2, (t1 ++ t2)%list).

Definition gets {A : Type} (f : state -> A) : M A := fun s => (f s, s, []%list).

Definition modify (f : state -> state) : M unit := fun s => (tt, f s, []%list).

Notation "x <- m ;; k" := (bind m (fun x => k))
  (at level 61, m at next level, right associativity).
Notation "m ;;; k" := (bind m (fun _ => k))
  (at level 61, right associativity).

Definition result {A : Type} (r : A * state * list event) : A := fst (fst r).
Definition final {A : Type} (r : A * state * list event) : state := snd (fst r).
Definition trace {A : Type} (r : A * state * list event) : list event := snd r.

(** The text a trace puts on [stderr]. *)
Fixpoint stderr_text (t : list event) : string :=
  match t with
  | nil => EmptyString
  | ev_stderr text :: t' => text ++ stderr_text t'
  | ev_call _ _ _ _ _ :: t' => stderr_text t'
  end.

Definition set_cur_loglevel (v : Z) (s : state) : state :=
  {| cur_loglevel := v; cur_logopts := cur_logopts s; sr_log_cb := sr_log_cb s;
     sr_log_cb_data := sr_log_cb_data s; sr_log_domain := sr_log_domain s;
     heap := heap s |}.

Definition set_cur_logopts (v : Z) (s : state) : state :=
  {| cur_loglevel := cur_loglevel s; cur_logopts := v; sr_log_cb := sr_log_cb s;
     sr_log_cb_data := sr_log_cb_data s; sr_log_domain := sr_log_domain s;
     heap := heap s |}.

Definition set_sr_log_cb (v : sr_log_callback) (s : state) : state :=
  {| cur_loglevel := cur_loglevel s; cur_logopts := cur_logopts s; sr_log_cb := v;
     sr_log_cb_data := sr_log_cb_data s; sr_log_domain := sr_log_domain s;
     heap := heap s |}.

Definition set_sr_log_cb_data (v : Z) (s : state) : state :=
  {| cur_loglevel := cur_loglevel s; cur_logopts := cur_logopts s; sr_log_cb := sr_log_cb s;
     sr_log_cb_data := v; sr_log_domain := sr_log_domain s;
     heap := heap s |}.

Definition set_sr_log_domain (v : string) (s : state) : state :=
  {| cur_loglevel := cur_loglevel s; cur_logopts := cur_logopts s; sr_log_cb := sr_log_cb s;
     sr_log_cb_data := sr_log_cb_data s; sr_log_domain := v;
     heap := heap s |}.

Definition set_heap (v : list string) (s : state) : state :=
  {| cur_loglevel := cur_loglevel s; cur_logopts := cur_logopts s; sr_log_cb := sr_log_cb s;
     sr_log_cb_data := sr_log_cb_data s; sr_log_domain := sr_log_domain s;
     heap := v |}.

(** [fprintf(stderr, format, ...)] and [vfprintf(stderr, format, args)]: one
    write, whose length is returned.  Writes are taken to succeed. *)
Definition fprintf_stderr (format : string) (args : va_list) : M Z :=
  fun s =>
    let text := vformat format args in
    (Z.of_nat (String.length text), s, [ev_stderr text]).

(** [buf[0] != '\0']. *)
Definition first_byte_set (buf : string) : bool :=
  match buf with
  | EmptyString => false
  | String c _ => negb (Ascii.eqb c NUL)
  end.

(** [x & mask] as a C condition. *)
Definition has (x mask : Z) : bool := negb (Z.land x mask =? 0).

(** [g_strdup(str)]: a new block, after all the others, holding the C string
    and its NUL; its position is the pointer. *)
Definition g_strdup (str : string) : M nat :=
  fun s =>
    (List.length (heap s),
     set_heap (heap s ++ [(c_str str ++ String NUL EmptyString)%string])%list s,
     []%list).

(** ** The functions of log.c *)

Section Log.

Context {h : libsigrok_h} (e : environment).

(** The default callback (the branch taken without [G_OS_WIN32]). *)
Definition sr_logv (cb_data : Z) (loglevel : Z) (format : string) (args : va_list) : M Z :=
  cur <- gets cur_loglevel ;;
  (* Only output messages of at least the selected loglevel(s). *)
  if loglevel >? cur then ret SR_OK
  else
    opts <- gets cur_logopts ;;
    (* Log date/time timestamp *)
    ret0 <-
      (if has opts (Z.lor (Z.lor (Z.lor SR_LOG_DATE SR_LOG_TIME) SR_LOG_TIME_MS) SR_LOG_TIME_US)
       then
         let dt_us := g_get_real_time e in
         let dt_timet := c_div dt_us 1000000 in
         conv <-
           (if has opts SR_LOG_UTC then
              match gmtime_r e dt_timet with
              | Some t => ret (0, t)
              | None =>
                  n <- fprintf_stderr "gmtime_r() failed: %d %s "
                         [va_int (errno e); va_str (strerror e (errno e))] ;;
                  ret (n, dt_tm_unset e)
              end
            else
              match localtime_r e dt_timet with
              | Some t => ret (0, t)
              | None =>
                  n <- fprintf_stderr "localtime_r() failed: %d %s "
                         [va_int (errno e); va_str (strerror e (errno e))] ;;
                  ret (n, dt_tm_unset e)
              end) ;;
         let dt_tm := snd conv in
         n_date <-
           (if has opts SR_LOG_DATE
            then fprintf_stderr "%s" [va_str (strftime "%Y%m%d " dt_tm)]
            else ret 0) ;;
         n_time <-
           (if has opts (Z.lor (Z.lor SR_LOG_TIME SR_LOG_TIME_MS) SR_LOG_TIME_US)
            then
              n_hms <- fprintf_stderr "%s" [va_str (strftime "%H%M%S" dt_tm)] ;;
              n_frac <-
                (if has opts SR_LOG_TIME_US
                 then fprintf_stderr ",%06u " [va_uint (to_guint (c_rem dt_us 1000000))]
                 else if has opts SR_LOG_TIME_MS
                 then fprintf_stderr ",%03u "
                        [va_uint (to_guint (c_rem (c_div dt_us 1000) 1000))]
                 else (* Resolution seconds only *)
                   fprintf_stderr " " []) ;;
              ret (n_hms + n_frac)
            else ret 0) ;;
         ret (fst conv + n_date + n_time)
       else ret 0) ;;
    (* Log domain and message *)
    domain <- gets sr_log_domain ;;
    (if first_byte_set domain then fprintf_stderr "%s" [va_str domain] else ret 0) ;;;
    n_msg <- fprintf_stderr format args ;;
    fprintf_stderr (String "010" EmptyString) [] ;;;
    ret (ret0 + n_msg).

(** [sr_log_cb(sr_log_cb_data, loglevel, format, args)]: the call through the
    function pointer. *)
Definition call_sr_log_cb (loglevel : Z) (format : string) (args : va_list) : M Z :=
  fun s =>
    match sr_log_cb s with
    | cb_sr_logv => sr_logv (sr_log_cb_data s) loglevel format args s
    | cb_user f =>
        (user_cb e f (sr_log_cb_data s) loglevel format args, s,
         [ev_call f (sr_log_cb_data s) loglevel format args])
    end.

Definition sr_log (loglevel : Z) (format : string) (args : va_list) : M Z :=
  call_sr_log_cb loglevel format args.

Definition sr_spew (format : string) (args : va_list) : M Z :=
  call_sr_log_cb SR_LOG_SPEW format args.

Definition sr_dbg (format : string) (args : va_list) : M Z :=
  call_sr_log_cb SR_LOG_DBG format args.

Definition sr_info (format : string) (args : va_list) : M Z :=
  call_sr_log_cb SR_LOG_INFO format args.

Definition sr_warn (format : string) (args : va_list) : M Z :=
  call_sr_log_cb SR_LOG_WARN format args.

Definition sr_err (format : string) (args : va_list) : M Z :=
  call_sr_log_cb SR_LOG_ERR format args.

Definition sr_log_loglevel_set (loglevel : Z) : M Z :=
  if ((loglevel <? SR_LOG_NONE) || (loglevel >? SR_LOG_SPEW))%bool then
    sr_err "Invalid loglevel %d." [va_int loglevel] ;;;
    ret SR_ERR_ARG
  else
    modify (set_cur_loglevel loglevel) ;;;
    sr_dbg "libsigrok loglevel set to %d." [va_int loglevel] ;;;
    ret SR_OK.

Definition sr_log_loglevel_get : M Z := gets cur_loglevel.

Definition sr_log_logopts_set (logopts : Z) : M Z :=
  if ((logopts <? SR_LOG_NOOPTS) ||
      (logopts >? Z.lor (Z.lor (Z.lor (Z.lor SR_LOG_DATE SR_LOG_TIME) SR_LOG_TIME_MS)
                           SR_LOG_TIME_US) SR_LOG_UTC))%bool
  then
    sr_err "Invalid log options %d." [va_int logopts] ;;;
    ret SR_ERR_ARG
  else
    modify (set_cur_logopts logopts) ;;;
    cur <- gets cur_logopts ;;
    sr_dbg "libsigrok log options set to %d." [va_int cur] ;;;
    ret SR_OK.

Definition sr_log_logopts_get : M Z := gets cur_logopts.

(** The argument is [None] for a NULL pointer. *)
Definition sr_log_logdomain_set (logdomain : option string) : M Z :=
  match logdomain with
  | None =>
      sr_err "log: %s: logdomain was NULL" [va_str "sr_log_logdomain_set"] ;;;
      ret SR_ERR_ARG
  | Some text =>
      modify (fun s =>
        set_sr_log_domain (snprintf_s (sr_log_domain s) LOGDOMAIN_MAXLEN text) s) ;;;
      domain <- gets sr_log_domain ;;
      sr_dbg "Log domain set to '%s'." [va_str domain] ;;;
      ret SR_OK
  end.

Definition sr_log_logdomain_get : M nat :=
  domain <- gets sr_log_domain ;;
  g_strdup domain.

Definition sr_log_callback_set (cb : option sr_log_callback) (cb_data : Z) : M Z :=
  match cb with
  | None =>
      sr_err "log: %s: cb was NULL" [va_str "sr_log_callback_set"] ;;;
      ret SR_ERR_ARG
  | Some f =>
      (* Note: 'cb_data' is allowed to be NULL. *)
      modify (set_sr_log_cb f) ;;;
      modify (set_sr_log_cb_data cb_data) ;;;
      ret SR_OK
  end.

Definition sr_log_callback_set_default : M Z :=
  modify (set_sr_log_cb cb_sr_logv) ;;;
  modify (set_sr_log_cb_data NULL) ;;;
  ret SR_OK.

(** The static initialisers. *)
Definition initial_state : state := {|
  cur_loglevel := SR_LOG_WARN;
  cur_logopts := SR_LOG_NOOPTS;
  sr_log_cb := cb_sr_logv;
  sr_log_cb_data := NULL;
  sr_log_domain := char_array (LOGDOMAIN_MAXLEN + 1) LOGDOMAIN_DEFAULT;
  heap := []
|}.

End Log.

(** A byte stored through a pointer [g_strdup] returned: byte [i] of block
    [p] becomes [c]. *)
Fixpoint poke_string (i : nat) (c : ascii) (b : string) : string :=
  match b, i with
  | EmptyString, _ => EmptyString
  | String _ rest, O => String c rest
  | String x rest, S i' => String x (poke_string i' c rest)
  end.

Fixpoint poke_block (p i : nat) (c : ascii) (hp : list string) : list string :=
  match hp, p with
  | nil, _ => nil
  | b :: hp', O => poke_string i c b :: hp'
  | b :: hp', S p' => b :: poke_block p' i c hp'
  end.

Definition poke (p i : nat) (c : ascii) (s : state) : state :=
  set_heap (poke_block p i c (heap s)) s.

(** The C string a heap pointer points to. *)
Definition string_at (p : nat) (s : state) : string :=
  c_str (nth p (heap s) EmptyString).

(** An environment for the examples: 2024-01-09 07:05:59.123456 UTC, local
    time one hour ahead, and callbacks that return their own number. *)
Definition example_env : environment := {|
  g_get_real_time := 1704783959123456;
  gmtime_r := fun _ => Some {| tm_year := 124; tm_mon := 0; tm_mday := 9;
                               tm_hour := 7; tm_min := 5; tm_sec := 59 |};
  localtime_r := fun _ => Some {| tm_year := 124; tm_mon := 0; tm_mday := 9;
                                  tm_hour := 8; tm_min := 5; tm_sec := 59 |};
  dt_tm_unset := {| tm_year := 0; tm_mon := 0; tm_mday := 0;
                    tm_hour := 0; tm_min := 0; tm_sec := 0 |};
  errno := 0;
  strerror := fun _ => "Success";
  user_cb := fun f _ _ _ _ => Z.of_nat f
|}.

(** ** The spec's wording of the timestamp *)

(** A number written with exactly [width] decimal digits. *)
Fixpoint fixed_digits (width : nat) (n : Z) : string :=
  match width with
  | O => EmptyString
  | S w => fixed_digits w (n / 10) ++ String (digit (n mod 10)) EmptyString
  end.

(** What follows HHMMSS, in the spec's words: with TIME_US a comma, the
    six-digit microsecond remainder and a space; else with TIME_MS a comma,
    the three-digit millisecond remainder and a space; else a space. *)
Definition spec_time_fraction (us_set ms_set : bool) (dt_us : Z) : string :=
  if us_set then "," ++ fixed_digits 6 (dt_us mod 1000000) ++ " "
  else if ms_set then "," ++ fixed_digits 3 ((dt_us / 1000) mod 1000) ++ " "
  else " ".

(** The calendar fields of the timestamp: UTC with the UTC flag, else local
    time; the unset [dt_tm] if the conversion fails. *)
Definition broken_down_time {h : libsigrok_h} (e : environment) (opts : Z) : tm :=
  let t := c_div (g_get_real_time e) 1000000 in
  match (if has opts SR_LOG_UTC then gmtime_r e t else localtime_r e t) with
  | Some x => x
  | None => dt_tm_unset e
  end.

(** The writes of the default callback after the timestamp: the domain if it
    is not empty, the message, a newline. *)
Definition message_events (domain format : string) (args : va_list) : list event :=
  ((if first_byte_set domain then [ev_stderr (c_str domain)] else []) ++
   [ev_stderr (vformat format args); ev_stderr (String "010" EmptyString)])%list.

(** The writes of the default callback before the domain, flag by flag: a
    diagnostic if the conversion failed, the date, the time and what follows
    it. *)
Definition timestamp_events {h : libsigrok_h} (e : environment) (opts : Z) : list event :=
  let dt_us := g_get_real_time e in
  let t := c_div dt_us 1000000 in
  let dt_tm := broken_down_time e opts in
  if (has opts SR_LOG_DATE || has opts SR_LOG_TIME || has opts SR_LOG_TIME_MS
      || has opts SR_LOG_TIME_US)%bool
  then
    ((match (if has opts SR_LOG_UTC then gmtime_r e t else localtime_r e t) with
      | Some _ => []
      | None =>
          [ev_stderr
             (vformat (if has opts SR_LOG_UTC then "gmtime_r() failed: %d %s "
                       else "localtime_r() failed: %d %s ")
                [va_int (errno e); va_str (strerror e (errno e))])]
      end) ++
     (if has opts SR_LOG_DATE then [ev_stderr (strftime "%Y%m%d " dt_tm)] else []) ++
     (if (has opts SR_LOG_TIME || has opts SR_LOG_TIME_MS || has opts SR_LOG_TIME_US)%bool
      then
        [ev_stderr (strftime "%H%M%S" dt_tm);
         ev_stderr
           (if has opts SR_LOG_TIME_US
            then vformat ",%06u " [va_uint (to_guint (c_rem dt_us 1000000))]
            else if has opts SR_LOG_TIME_MS
            then vformat ",%03u " [va_uint (to_guint (c_rem (c_div dt_us 1000) 1000))]
            else " ")]
      else []))%list
  else [].

(** ** A client of log.c *)

Section Client.

Context {h : libsigrok_h} (e : environment).

(** One call of a function of log.c by the rest of the library or by the
    application, or one byte the application stores through a pointer it got
    from [sr_log_logdomain_get]. *)
Inductive api_call : Set :=
| call_loglevel_set (loglevel : Z)
| call_loglevel_get
| call_logopts_set (logopts : Z)
| call_logopts_get
| call_logdomain_set (logdomain : option string)
| call_logdomain_get
| call_callback_set (cb : option sr_log_callback) (cb_data : Z)
| call_callback_set_default
| call_log (loglevel : Z) (format : string) (args : va_list)
| call_spew (format : string) (args : va_list)
| call_dbg (format : string) (args : va_list)
| call_info (format : string) (args : va_list)
| call_warn (format : string) (args : va_list)
| call_err (format : string) (args : va_list)
| call_poke (p i : nat) (c : ascii).

(** The state after one call. *)
Definition run_call (c : api_call) (s : state) : state :=
  match c with
  | call_loglevel_set loglevel => final (sr_log_loglevel_set e loglevel s)
  | call_loglevel_get => final (sr_log_loglevel_get s)
  | call_logopts_set logopts => final (sr_log_logopts_set e logopts s)
  | call_logopts_get => final (sr_log_logopts_get s)
  | call_logdomain_set logdomain => final (sr_log_logdomain_set e logdomain s)
  | call_logdomain_get => final (sr_log_logdomain_get s)
  | call_callback_set cb cb_data => final (sr_log_callback_set e cb cb_data s)
  | call_callback_set_default => final (sr_log_callback_set_default s)
  | call_log loglevel format args => final (sr_log e loglevel format args s)
  | call_spew format args => final (sr_spew e format args s)
  | call_dbg format args => final (sr_dbg e format args s)
  | call_info format args => final (sr_info e format args s)
  | call_warn format args => final (sr_warn e format args s)
  | call_err format args => final (sr_err e format args s)
  | call_poke p i c => poke p i c s
  end.

(** The state after a sequence of calls, first call first. *)
Fixpoint run_calls (cs : list api_call) (s : state) : state :=
  match cs with
  | nil => s
  | c :: cs' => run_calls cs' (run_call c s)
  end.

(** The union of all option flags, as [sr_log_logopts_set] writes it. *)
Definition all_logopts : Z :=
  Z.lor (Z.lor (Z.lor (Z.lor SR_LOG_DATE SR_LOG_TIME) SR_LOG_TIME_MS) SR_LOG_TIME_US)
    SR_LOG_UTC.

(** The statics are in range: the level and the options are values their
    setters accept, and the domain buffer, of [LOGDOMAIN_MAXLEN + 1] bytes,
    holds a NUL among its first [LOGDOMAIN_MAXLEN] bytes. *)
Definition statics_in_range (s : state) : Prop :=
  SR_LOG_NONE <= cur_loglevel s <= SR_LOG_SPEW /\
  SR_LOG_NOOPTS <= cur_logopts s <= all_logopts /\
  String.length (sr_log_domain s) = S LOGDOMAIN_MAXLEN /\
  (String.length (c_str (sr_log_domain s)) < LOGDOMAIN_MAXLEN)%nat.

End Client.

(** * Properties *)

(** ** Strings *)

Lemma append_nil_r (s : string) : s ++ "" = s.
Proof. induction s as [|c s IH]; simpl; [reflexivity | now rewrite IH]. Qed.

Lemma append_assoc (a b c : string) : (a ++ b) ++ c = a ++ (b ++ c).
Proof. induction a as [|x a IH]; simpl; [reflexivity | now rewrite IH]. Qed.

Lemma length_append (a b : string) :
  String.length (a ++ b) = (String.length a + String.length b)%nat.
Proof. induction a as [|x a IH]; simpl; [reflexivity | now rewrite IH]. Qed.

Lemma zeros_snoc (n : nat) : zeros n ++ "0" = zeros (S n).
Proof. induction n as [|n IH]; simpl; [reflexivity | now rewrite IH]. Qed.

Lemma c_str_first_byte (buf : string) :
  first_byte_set buf = false -> c_str buf = "".
Proof.
  destruct buf as [|c rest]; simpl; [reflexivity|].
  destruct (Ascii.eqb c NUL); simpl; [reflexivity | discriminate].
Qed.

Lemma c_str_idem (buf : string) : c_str (c_str buf) = c_str buf.
Proof.
  induction buf as [|c rest IH]; simpl; [reflexivity|].
  destruct (Ascii.eqb c NUL) eqn:E; simpl; [reflexivity|].
  now rewrite E, IH.
Qed.

(** The C string of a buffer after [snprintf(buf, size, "%s", src)] is the
    first [size - 1] bytes of the C string [src], when the buffer has room
    for [size] bytes. *)
Lemma c_str_snprintf_s (size : nat) : forall buf src,
  (size <= String.length buf)%nat ->
  c_str (snprintf_s buf (S size) src) = substring 0 size (c_str src).
Proof.
  induction size as [|n IH]; intros buf src Hlen.
  - destruct buf as [|b rest]; simpl; [|now destruct (c_str src)].
    now destruct (c_str src).
  - destruct buf as [|b rest]; simpl in Hlen; [lia|].
    change (snprintf_s (String b rest) (S (S n)) src)
      with (match src with
            | EmptyString => String NUL rest
            | String c src' =>
                if Ascii.eqb c NUL then String NUL rest
                else String c (snprintf_s rest (S n) src')
            end).
    destruct src as [|c src']; [reflexivity|].
    simpl c_str at 2.
    destruct (Ascii.eqb c NUL) eqn:E; [reflexivity|].
    simpl. rewrite E. f_equal. apply IH. lia.
Qed.

Lemma length_snprintf_s (size : nat) : forall buf src,
  String.length (snprintf_s buf size src) = String.length buf.
Proof.
  induction size as [|n IH]; intros buf src; [reflexivity|].
  destruct buf as [|b rest]; [reflexivity|].
  destruct n as [|n']; [reflexivity|].
  change (snprintf_s (String b rest) (S (S n')) src)
    with (match src with
          | EmptyString => String NUL rest
          | String c src' =>
              if Ascii.eqb c NUL then String NUL rest
              else String c (snprintf_s rest (S n') src')
          end).
  destruct src as [|c src']; [reflexivity|].
  destruct (Ascii.eqb c NUL); [reflexivity|].
  simpl String.length. f_equal. apply IH.
Qed.

(** ** Decimal digits *)


Lemma fixed_digits_0 (w : nat) : fixed_digits w 0 = zeros w.
Proof.
  induction w as [|w IH]; [reflexivity|].
  simpl fixed_digits. change (0 / 10) with 0. rewrite IH.
  change (String (digit (0 mod 10)) "") with "0"%string. apply zeros_snoc.
Qed.

Lemma pow10_S (k : nat) : 10 ^ Z.of_nat (S k) = 10 * 10 ^ Z.of_nat k.
Proof. rewrite Nat2Z.inj_succ, Z.pow_succ_r by lia. reflexivity. Qed.

Lemma div10_bound (k : nat) (n : Z) :
  0 <= n < 10 ^ Z.of_nat (S k) -> 0 <= n / 10 < 10 ^ Z.of_nat k.
Proof.
  rewrite pow10_S. intros [H0 H1]. split.
  - apply Z.div_pos; lia.
  - apply Z.div_lt_upper_bound; lia.
Qed.

(** With fuel for [k] digits, [utoa] writes a number below [10^k] in at most
    [k] digits; padded with zeros to [k] they are its [k]-digit form. *)
Lemma utoa_fixed_digits (k : nat) : forall fuel n acc,
  (S k <= fuel)%nat -> 0 <= n < 10 ^ Z.of_nat (S k) ->
  exists s, utoa fuel n acc = s ++ acc /\ (String.length s <= S k)%nat /\
            zeros (S k - String.length s) ++ s = fixed_digits (S k) n.
Proof.
  induction k as [|k IH]; intros fuel n acc Hf Hn;
    (destruct fuel as [|f]; [lia|]); simpl utoa;
    pose proof (div10_bound _ _ Hn) as Hq;
    destruct (n / 10 =? 0) eqn:E.
  - exists (String (digit (n mod 10)) ""). repeat split; simpl; auto.
  - apply Z.eqb_neq in E. simpl in Hq. lia.
  - apply Z.eqb_eq in E.
    exists (String (digit (n mod 10)) ""). repeat split; [simpl; lia|].
    change (fixed_digits (S (S k)) n)
      with (fixed_digits (S k) (n / 10) ++ String (digit (n mod 10)) "").
    rewrite E, fixed_digits_0. reflexivity.
  - destruct (IH f (n / 10) (String (digit (n mod 10)) acc)) as (s & Hs & Hl & Hz);
      [lia | exact Hq |].
    exists (s ++ String (digit (n mod 10)) ""). repeat split.
    + rewrite Hs, append_assoc. reflexivity.
    + rewrite length_append. simpl. lia.
    + change (fixed_digits (S (S k)) n)
        with (fixed_digits (S k) (n / 10) ++ String (digit (n mod 10)) "").
      rewrite <- Hz, length_append, append_assoc. simpl String.length.
      replace (S (S k) - (String.length s + 1))%nat with (S k - String.length s)%nat by lia.
      reflexivity.
Qed.

(** [%0Wu] of a number below [10^W] is its [W]-digit form. *)
Lemma zero_pad_fmt_u (w : nat) (n : Z) :
  (1 <= w <= 10)%nat -> 0 <= n < 10 ^ Z.of_nat w ->
  zero_pad w (fmt_u n) = fixed_digits w n.
Proof.
  intros Hw Hn. destruct w as [|k]; [lia|].
  destruct (utoa_fixed_digits k 10%nat n "" ltac:(lia) Hn) as (s & Hs & _ & Hz).
  unfold zero_pad, fmt_u. rewrite Hs, append_nil_r. exact Hz.
Qed.

(** More fuel than digits changes nothing: ten digits are enough for every
    32-bit argument. *)
Lemma utoa_fuel (k : nat) : forall f f' n acc,
  (S k <= f)%nat -> (S k <= f')%nat -> 0 <= n < 10 ^ Z.of_nat (S k) ->
  utoa f n acc = utoa f' n acc.
Proof.
  induction k as [|k IH]; intros f f' n acc Hf Hf' Hn;
    (destruct f as [|f]; [lia|]); (destruct f' as [|f']; [lia|]); simpl;
    pose proof (div10_bound _ _ Hn) as Hq;
    destruct (n / 10 =? 0) eqn:E; try reflexivity.
  - apply Z.eqb_neq in E. simpl in Hq. lia.
  - apply IH; [lia | lia | exact Hq].
Qed.

Lemma fmt_u_guint (n : Z) (extra : nat) :
  fmt_u (to_guint n) = utoa (10 + extra) (to_guint n) "".
Proof.
  unfold fmt_u. apply (utoa_fuel 9); [lia | lia |].
  unfold to_guint. pose proof (Z.mod_pos_bound n (2 ^ 32) ltac:(lia)). simpl Z.of_nat. lia.
Qed.

(** ** Option masks *)

Lemma has_lor (x a b : Z) : has x (Z.lor a b) = (has x a || has x b)%bool.
Proof.
  unfold has. rewrite Z.land_lor_distr_r.
  destruct (Z.land x a =? 0) eqn:Ea, (Z.land x b =? 0) eqn:Eb; simpl;
    rewrite ?Z.eqb_eq, ?Z.eqb_neq in *.
  - apply negb_false_iff, Z.eqb_eq. apply Z.lor_eq_0_iff. auto.
  - apply negb_true_iff, Z.eqb_neq. rewrite Z.lor_eq_0_iff. tauto.
  - apply negb_true_iff, Z.eqb_neq. rewrite Z.lor_eq_0_iff. tauto.
  - apply negb_true_iff, Z.eqb_neq. rewrite Z.lor_eq_0_iff. tauto.
Qed.

(** ** Texts without NUL *)

Lemma digit_not_NUL (n : Z) : Ascii.eqb (digit (n mod 10)) NUL = false.
Proof.
  pose proof (Z.mod_pos_bound n 10 ltac:(lia)) as Hr.
  assert (Hc : n mod 10 = 0 \/ n mod 10 = 1 \/ n mod 10 = 2 \/ n mod 10 = 3 \/
               n mod 10 = 4 \/ n mod 10 = 5 \/ n mod 10 = 6 \/ n mod 10 = 7 \/
               n mod 10 = 8 \/ n mod 10 = 9) by lia.
  repeat (destruct Hc as [Hc|Hc]; [rewrite Hc; reflexivity|]).
  rewrite Hc; reflexivity.
Qed.

Lemma c_str_append (a b : string) :
  c_str a = a -> c_str b = b -> c_str (a ++ b) = a ++ b.
Proof.
  induction a as [|c a IH]; simpl; intros Ha Hb; [exact Hb|].
  destruct (Ascii.eqb c NUL); [discriminate|].
  injection Ha as Ha. now rewrite IH.
Qed.

Lemma c_str_utoa (fuel : nat) : forall n acc,
  c_str acc = acc -> c_str (utoa fuel n acc) = utoa fuel n acc.
Proof.
  induction fuel as [|f IH]; intros n acc Hacc; cbn [utoa]; [exact Hacc|].
  assert (Hd : c_str (String (digit (n mod 10)) acc) = String (digit (n mod 10)) acc)
    by (cbn [c_str]; now rewrite digit_not_NUL, Hacc).
  destruct (n / 10 =? 0); [exact Hd | now apply IH].
Qed.

Lemma c_str_zeros (n : nat) : c_str (zeros n) = zeros n.
Proof. induction n as [|n IH]; simpl; [reflexivity | now rewrite IH]. Qed.

Lemma c_str_two_digits (n : Z) : c_str (two_digits n) = two_digits n.
Proof.
  unfold two_digits, zero_pad, fmt_u.
  apply c_str_append; [apply c_str_zeros | now apply c_str_utoa].
Qed.

Lemma c_str_fmt_d (n : Z) : c_str (fmt_d n) = fmt_d n.
Proof.
  unfold fmt_d, fmt_u. destruct (n <? 0).
  - change (c_str (String "-" (utoa 10 (- n) "")))
      with (String "-" (c_str (utoa 10 (- n) ""))).
    now rewrite c_str_utoa.
  - now apply c_str_utoa.
Qed.

Lemma c_str_strftime_date (t : tm) :
  c_str (strftime "%Y%m%d " t) = strftime "%Y%m%d " t.
Proof.
  change (strftime "%Y%m%d " t)
    with (fmt_d (1900 + tm_year t) ++ two_digits (1 + tm_mon t) ++
          two_digits (tm_mday t) ++ " ").
  apply c_str_append; [apply c_str_fmt_d|].
  apply c_str_append; [apply c_str_two_digits|].
  apply c_str_append; [apply c_str_two_digits | reflexivity].
Qed.

Lemma c_str_strftime_time (t : tm) :
  c_str (strftime "%H%M%S" t) = strftime "%H%M%S" t.
Proof.
  change (strftime "%H%M%S" t)
    with (two_digits (tm_hour t) ++ two_digits (tm_min t) ++ two_digits (tm_sec t) ++ "").
  apply c_str_append; [apply c_str_two_digits|].
  apply c_str_append; [apply c_str_two_digits|].
  apply c_str_append; [apply c_str_two_digits | reflexivity].
Qed.

Lemma vformat_s (s : string) : vformat "%s" [va_str s] = c_str s.
Proof. simpl. apply append_nil_r. Qed.

Lemma vformat_newline : vformat (String "010" "") [] = String "010" "".
Proof. reflexivity. Qed.

Lemma vformat_space : vformat " " [] = " ".
Proof. reflexivity. Qed.

(** ** The default callback in one equation *)

Lemma sr_logv_eq {h : libsigrok_h} (e : environment) (cb_data loglevel : Z)
    (format : string) (args : va_list) (s : state) :
  sr_logv e cb_data loglevel format args s =
  if loglevel >? cur_loglevel s then (SR_OK, s, [])
  else
    let ts := timestamp_events e (cur_logopts s) in
    (Z.of_nat (String.length (stderr_text ts)) + Z.of_nat (String.length (vformat format args)),
     s, (ts ++ message_events (sr_log_domain s) format args)%list).
Proof.
  unfold sr_logv, timestamp_events, message_events, broken_down_time.
  cbv [bind gets ret].
  destruct (loglevel >? cur_loglevel s); [reflexivity|].
  rewrite !has_lor.
  destruct (has (cur_logopts s) SR_LOG_DATE), (has (cur_logopts s) SR_LOG_TIME),
    (has (cur_logopts s) SR_LOG_TIME_MS), (has (cur_logopts s) SR_LOG_TIME_US);
    (destruct (has (cur_logopts s) SR_LOG_UTC);
     [destruct (gmtime_r e (c_div (g_get_real_time e) 1000000))
     |destruct (localtime_r e (c_div (g_get_real_time e) 1000000))]);
    cbv [bind gets ret fprintf_stderr fst snd orb app stderr_text];
    destruct (first_byte_set (sr_log_domain s));
    cbv [bind gets ret fprintf_stderr fst snd orb app stderr_text];
    rewrite ?vformat_s, ?c_str_strftime_date, ?c_str_strftime_time,
      ?vformat_newline, ?vformat_space, ?length_append;
    cbn [String.length];
    (apply (f_equal2 pair); [apply (f_equal2 pair); [lia | reflexivity] | reflexivity]).
Qed.

Lemma stderr_text_app (t1 t2 : list event) :
  stderr_text (t1 ++ t2) = stderr_text t1 ++ stderr_text t2.
Proof.
  induction t1 as [|ev t1 IH]; [reflexivity|].
  destruct ev; simpl; [rewrite IH; symmetry; apply append_assoc | exact IH].
Qed.

Lemma stderr_text_message (domain format : string) (args : va_list) :
  stderr_text (message_events domain format args) =
  c_str domain ++ vformat format args ++ String "010" "".
Proof.
  unfold message_events. destruct (first_byte_set domain) eqn:E; simpl.
  - reflexivity.
  - now rewrite (c_str_first_byte _ E).
Qed.

Lemma message_events_not_nil (domain format : string) (args : va_list) (ts : list event) :
  (ts ++ message_events domain format args)%list <> [].
Proof.
  unfold message_events. intros H.
  apply app_eq_nil in H as [_ H]. apply app_eq_nil in H as [_ H]. discriminate.
Qed.

Lemma message_events_end (domain format : string) (args : va_list) (ts : list event) :
  exists pre,
    (ts ++ message_events domain format args)%list =
    (pre ++ [ev_stderr (vformat format args); ev_stderr (String "010" "")])%list.
Proof.
  unfold message_events.
  exists (ts ++ (if first_byte_set domain then [ev_stderr (c_str domain)] else []))%list.
  now rewrite app_assoc.
Qed.

(** ** The call through the function pointer *)

Lemma call_sr_log_cb_final {h : libsigrok_h} (e : environment) (loglevel : Z)
    (format : string) (args : va_list) (s : state) :
  final (call_sr_log_cb e loglevel format args s) = s.
Proof.
  unfold call_sr_log_cb. destruct (sr_log_cb s); [|reflexivity].
  rewrite sr_logv_eq. now destruct (loglevel >? cur_loglevel s).
Qed.

Lemma bind_call_sr_log_cb {h : libsigrok_h} {B : Type} (e : environment) (loglevel : Z)
    (format : string) (args : va_list) (k : Z -> M B) (s : state) :
  bind (call_sr_log_cb e loglevel format args) k s =
  let r := call_sr_log_cb e loglevel format args s in
  (result (k (result r) s), final (k (result r) s), (trace r ++ trace (k (result r) s))%list).
Proof.
  unfold bind. pose proof (call_sr_log_cb_final e loglevel format args s) as Hs.
  destruct (call_sr_log_cb e loglevel format args s) as [[r s1] t1].
  unfold final in Hs; simpl in Hs; subst s1.
  cbv zeta. unfold result, final, trace; simpl.
  now destruct (k r s) as [[b s2] t2].
Qed.

Lemma sr_logv_shown {h : libsigrok_h} (e : environment) (cb_data S : Z)
    (format : string) (args : va_list) (s : state) :
  S <= cur_loglevel s ->
  exists pre, trace (sr_logv e cb_data S format args s) =
    (pre ++ [ev_stderr (vformat format args); ev_stderr (String "010" "")])%list.
Proof.
  intros HS. rewrite sr_logv_eq.
  replace (S >? cur_loglevel s) with false by (symmetry; rewrite Z.gtb_ltb; apply Z.ltb_ge; lia).
  apply message_events_end.
Qed.

Lemma sr_logv_hidden {h : libsigrok_h} (e : environment) (cb_data S : Z)
    (format : string) (args : va_list) (s : state) :
  cur_loglevel s < S ->
  sr_logv e cb_data S format args s = (SR_OK, s, []).
Proof.
  intros HS. rewrite sr_logv_eq.
  now replace (S >? cur_loglevel s) with true by (symmetry; apply Z.gtb_lt; lia).
Qed.

(** ** The level filter of the default callback *)

(** C1: the default callback writes (and then the message and a newline end
    what it writes) if and only if the severity is at most the threshold;
    above the threshold it writes nothing, changes nothing and returns
    SR_OK. *)
Theorem sr_logv_level_filter {h : libsigrok_h} (e : environment) (cb_data S : Z)
    (format : string) (args : va_list) (s : state) :
  let r := sr_logv e cb_data S format args s in
  (trace r <> [] <-> S <= cur_loglevel s) /\
  ((exists pre, trace r =
      (pre ++ [ev_stderr (vformat format args); ev_stderr (String "010" "")])%list)
   <-> S <= cur_loglevel s) /\
  (cur_loglevel s < S -> r = (SR_OK, s, [])).
Proof.
  cbv zeta. rewrite sr_logv_eq.
  destruct (S >? cur_loglevel s) eqn:E.
  - apply Z.gtb_lt in E. unfold trace; simpl. repeat split.
    + intros H. now contradiction H.
    + lia.
    + intros [pre H]. symmetry in H. apply app_eq_nil in H as [_ H]. discriminate.
    + lia.
  - assert (S <= cur_loglevel s) by (rewrite Z.gtb_ltb in E; apply Z.ltb_ge in E; exact E).
    unfold trace; cbv zeta; simpl snd. repeat split; try tauto; try lia.
    + intros _. apply message_events_not_nil.
    + intros _. apply message_events_end.
Qed.

Lemma sr_logv_level_filter_witness :
  cur_loglevel (@initial_state upstream_h) < 3 /\
  @sr_logv upstream_h example_env NULL 3 "x" [] (@initial_state upstream_h) =
  (0, @initial_state upstream_h, []).
Proof.
  split; [vm_compute; reflexivity|].
  apply (@sr_logv_level_filter upstream_h example_env NULL 3 "x" [] (@initial_state upstream_h)).
  vm_compute; reflexivity.
Defined.

(** ** The value the default callback returns *)

Lemma sr_logv_return_not_total :
  let r := @sr_logv upstream_h example_env NULL 1 "x" [] (@initial_state upstream_h) in
  trace r = [ev_stderr "sr: "; ev_stderr "x"; ev_stderr (String "010" "")] /\
  result r = 1 /\
  result r <> Z.of_nat (String.length (stderr_text (trace r))).
Proof. vm_compute. repeat split. discriminate. Qed.

(** C3, amended: when the default callback writes, it returns the number of
    characters of the timestamp (diagnostic, date, time) plus the number of
    characters of the formatted message.  The domain and the newline are
    written but not counted: the characters written are that value, plus the
    length of the domain, plus one. *)
Theorem sr_logv_return_count {h : libsigrok_h} (e : environment) (cb_data S : Z)
    (format : string) (args : va_list) (s : state) :
  S <= cur_loglevel s ->
  let r := sr_logv e cb_data S format args s in
  result r =
    Z.of_nat (String.length (stderr_text (timestamp_events e (cur_logopts s)))) +
    Z.of_nat (String.length (vformat format args)) /\
  Z.of_nat (String.length (stderr_text (trace r))) =
    result r + Z.of_nat (String.length (c_str (sr_log_domain s))) + 1.
Proof.
  intros HS. cbv zeta. rewrite sr_logv_eq.
  replace (S >? cur_loglevel s) with false by (symmetry; rewrite Z.gtb_ltb; apply Z.ltb_ge; lia).
  cbv zeta. unfold result, trace. simpl fst; simpl snd. split; [reflexivity|].
  rewrite stderr_text_app, stderr_text_message, !length_append.
  cbn [String.length]. lia.
Qed.

Lemma sr_logv_return_count_witness :
  let s := set_cur_logopts 6 (@initial_state upstream_h) in
  let r := @sr_logv upstream_h example_env NULL 1 "failed: %d" [va_int 42] s in
  1 <= cur_loglevel s /\
  result r = 11 + 10 /\
  Z.of_nat (String.length (stderr_text (trace r))) = result r + 4 + 1.
Proof.
  split; [vm_compute; discriminate|].
  exact (@sr_logv_return_count upstream_h example_env NULL 1 "failed: %d" [va_int 42]
           (set_cur_logopts 6 (@initial_state upstream_h))
           ltac:(vm_compute; discriminate)).
Defined.

(** ** Errors and the threshold *)

Lemma sr_log_loglevel_set_inv {h : libsigrok_h} (e : environment) (L : Z) (s : state) :
  L < SR_LOG_NONE \/ SR_LOG_SPEW < L ->
  sr_log_loglevel_set e L s =
  (SR_ERR_ARG, s, trace (sr_err e "Invalid loglevel %d." [va_int L] s)).
Proof.
  intros HL. unfold sr_log_loglevel_set.
  replace ((L <? SR_LOG_NONE) || (L >? SR_LOG_SPEW))%bool with true
    by (symmetry; apply orb_true_iff; rewrite Z.ltb_lt, Z.gtb_lt; lia).
  unfold sr_err. rewrite bind_call_sr_log_cb. cbv zeta.
  unfold ret, result, final, trace; simpl. now rewrite app_nil_r.
Qed.

Lemma sr_log_loglevel_set_ok {h : libsigrok_h} (e : environment) (L : Z) (s : state) :
  SR_LOG_NONE <= L <= SR_LOG_SPEW ->
  sr_log_loglevel_set e L s =
  (SR_OK, set_cur_loglevel L s,
   trace (sr_dbg e "libsigrok loglevel set to %d." [va_int L] (set_cur_loglevel L s))).
Proof.
  intros HL. unfold sr_log_loglevel_set.
  replace ((L <? SR_LOG_NONE) || (L >? SR_LOG_SPEW))%bool with false
    by (symmetry; apply orb_false_iff; rewrite Z.ltb_ge, Z.gtb_ltb, Z.ltb_ge; lia).
  unfold sr_dbg. unfold bind at 1, modify. rewrite bind_call_sr_log_cb. cbv zeta.
  unfold ret, result, final, trace; simpl. now rewrite app_nil_r.
Qed.

Lemma error_suppressed_at_NONE :
  let s := @initial_state upstream_h in
  let r := @sr_log_loglevel_set upstream_h example_env (@SR_LOG_NONE upstream_h) s in
  result r = @SR_OK upstream_h /\
  @sr_err upstream_h example_env "failed: %d" [va_int 42] (final r) =
  (@SR_OK upstream_h, final r, []).
Proof. vm_compute. split; reflexivity. Qed.

(** C4, amended: a threshold from ERROR to SPEW is accepted by
    [sr_log_loglevel_set], and under it an emission at ERROR passes the filter
    of the default callback, whose writes end with the message and a newline.
    The threshold NONE is accepted as well, and under it the emission is
    suppressed. *)
Theorem error_passes_from_ERR_to_SPEW {h : libsigrok_h} (e : environment) (T : Z)
    (format : string) (args : va_list) (s : state) :
  SR_LOG_NONE < SR_LOG_ERR ->
  SR_LOG_ERR <= SR_LOG_SPEW ->
  sr_log_cb s = cb_sr_logv ->
  (SR_LOG_ERR <= T <= SR_LOG_SPEW ->
   result (sr_log_loglevel_set e T s) = SR_OK /\
   exists pre, trace (sr_err e format args (final (sr_log_loglevel_set e T s))) =
     (pre ++ [ev_stderr (vformat format args); ev_stderr (String "010" "")])%list) /\
  (result (sr_log_loglevel_set e SR_LOG_NONE s) = SR_OK /\
   trace (sr_err e format args (final (sr_log_loglevel_set e SR_LOG_NONE s))) = []).
Proof.
  intros Hord Hord' Hcb. split.
  - intros HT. rewrite sr_log_loglevel_set_ok by lia.
    unfold result, final; simpl. split; [reflexivity|].
    unfold sr_err, call_sr_log_cb. simpl sr_log_cb. rewrite Hcb.
    apply sr_logv_shown. simpl; lia.
  - rewrite sr_log_loglevel_set_ok by lia.
    unfold result, final; simpl. split; [reflexivity|].
    unfold sr_err, call_sr_log_cb. simpl sr_log_cb. rewrite Hcb.
    rewrite sr_logv_hidden by (simpl; lia). reflexivity.
Qed.

Lemma error_passes_from_ERR_to_SPEW_witness :
  let s := @initial_state upstream_h in
  (@SR_LOG_NONE upstream_h < @SR_LOG_ERR upstream_h /\
   @SR_LOG_ERR upstream_h <= @SR_LOG_SPEW upstream_h /\
   sr_log_cb s = cb_sr_logv /\
   @SR_LOG_ERR upstream_h <= 1 <= @SR_LOG_SPEW upstream_h) /\
  exists pre,
    trace (@sr_err upstream_h example_env "failed: %d" [va_int 42]
             (final (@sr_log_loglevel_set upstream_h example_env 1 s))) =
    (pre ++ [ev_stderr "failed: 42"; ev_stderr (String "010" "")])%list.
Proof.
  split; [vm_compute; intuition discriminate|].
  apply (proj1 (@error_passes_from_ERR_to_SPEW upstream_h example_env 1 "failed: %d"
                  [va_int 42] (@initial_state upstream_h)
                  ltac:(vm_compute; reflexivity) ltac:(vm_compute; discriminate)
                  ltac:(reflexivity))).
  vm_compute; split; discriminate.
Defined.

(** ** The setters of the level and of the options *)

Lemma sr_log_logopts_set_inv {h : libsigrok_h} (e : environment) (m : Z) (s : state) :
  m < SR_LOG_NOOPTS \/
  Z.lor (Z.lor (Z.lor (Z.lor SR_LOG_DATE SR_LOG_TIME) SR_LOG_TIME_MS) SR_LOG_TIME_US)
    SR_LOG_UTC < m ->
  sr_log_logopts_set e m s =
  (SR_ERR_ARG, s, trace (sr_err e "Invalid log options %d." [va_int m] s)).
Proof.
  intros Hm. unfold sr_log_logopts_set.
  match goal with |- (if ?c then _ else _) _ = _ =>
    replace c with true by (symmetry; apply orb_true_iff; rewrite Z.ltb_lt, Z.gtb_lt; lia)
  end.
  unfold sr_err. rewrite bind_call_sr_log_cb. cbv zeta.
  unfold ret, result, final, trace; simpl. now rewrite app_nil_r.
Qed.

Lemma sr_log_logopts_set_ok {h : libsigrok_h} (e : environment) (m : Z) (s : state) :
  SR_LOG_NOOPTS <= m <=
  Z.lor (Z.lor (Z.lor (Z.lor SR_LOG_DATE SR_LOG_TIME) SR_LOG_TIME_MS) SR_LOG_TIME_US)
    SR_LOG_UTC ->
  sr_log_logopts_set e m s =
  (SR_OK, set_cur_logopts m s,
   trace (sr_dbg e "libsigrok log options set to %d." [va_int m] (set_cur_logopts m s))).
Proof.
  intros Hm. unfold sr_log_logopts_set.
  match goal with |- (if ?c then _ else _) _ = _ =>
    replace c with false
      by (symmetry; apply orb_false_iff; rewrite Z.ltb_ge, Z.gtb_ltb, Z.ltb_ge; lia)
  end.
  unfold sr_dbg. unfold bind at 1, modify. unfold bind at 1, gets.
  cbn [set_cur_logopts cur_logopts].
  rewrite bind_call_sr_log_cb. cbv zeta.
  unfold ret, result, final, trace; simpl. now rewrite app_nil_r.
Qed.

(** C5: a level outside [NONE, SPEW] and a mask outside [0, union of all
    flags] are rejected with SR_ERR_ARG, the state is left as it was, and what
    the call does is exactly the report made through [sr_err], that is
    through the registered callback at severity ERROR. *)
Theorem invalid_level_and_options_rejected {h : libsigrok_h} (e : environment)
    (L m : Z) (s : state) :
  SR_LOG_NOOPTS = 0 ->
  L < SR_LOG_NONE \/ SR_LOG_SPEW < L ->
  m < 0 \/
  Z.lor (Z.lor (Z.lor (Z.lor SR_LOG_DATE SR_LOG_TIME) SR_LOG_TIME_MS) SR_LOG_TIME_US)
    SR_LOG_UTC < m ->
  (result (sr_log_loglevel_set e L s) = SR_ERR_ARG /\
   final (sr_log_loglevel_set e L s) = s /\
   result (sr_log_loglevel_get (final (sr_log_loglevel_set e L s))) = cur_loglevel s /\
   trace (sr_log_loglevel_set e L s) =
     trace (call_sr_log_cb e SR_LOG_ERR "Invalid loglevel %d." [va_int L] s)) /\
  (result (sr_log_logopts_set e m s) = SR_ERR_ARG /\
   final (sr_log_logopts_set e m s) = s /\
   result (sr_log_logopts_get (final (sr_log_logopts_set e m s))) = cur_logopts s /\
   trace (sr_log_logopts_set e m s) =
     trace (call_sr_log_cb e SR_LOG_ERR "Invalid log options %d." [va_int m] s)).
Proof.
  intros H0 HL Hm.
  rewrite sr_log_loglevel_set_inv by exact HL.
  rewrite sr_log_logopts_set_inv by (rewrite H0; exact Hm).
  repeat split.
Qed.

Lemma invalid_level_and_options_rejected_witness :
  let s := @initial_state upstream_h in
  (@SR_LOG_NOOPTS upstream_h = 0 /\
   (7 < @SR_LOG_NONE upstream_h \/ @SR_LOG_SPEW upstream_h < 7) /\
   (32 < 0 \/ 31 < 32)) /\
  (result (@sr_log_loglevel_set upstream_h example_env 7 s) = -3 /\
   final (@sr_log_loglevel_set upstream_h example_env 7 s) = s) /\
  (result (@sr_log_logopts_set upstream_h example_env 32 s) = -3 /\
   final (@sr_log_logopts_set upstream_h example_env 32 s) = s).
Proof.
  split; [vm_compute; intuition (reflexivity || auto)|].
  pose proof (@invalid_level_and_options_rejected upstream_h example_env 7 32
                (@initial_state upstream_h) eq_refl
                ltac:(right; vm_compute; reflexivity)
                ltac:(right; vm_compute; reflexivity)) as [(A & B & _) (C & D & _)].
  cbv zeta. repeat split; assumption.
Defined.

(** C6: a level in [NONE, SPEW] is accepted and committed, so that
    [sr_log_loglevel_get] returns it; what the call does is exactly the
    [sr_dbg] confirmation made in the state that already holds the new level,
    so with the default callback the confirmation is written if and only if
    DEBUG is at most the new level, whatever the previous level was. *)
Theorem valid_level_committed {h : libsigrok_h} (e : environment) (L : Z) (s : state) :
  SR_LOG_NONE <= L <= SR_LOG_SPEW ->
  let r := sr_log_loglevel_set e L s in
  result r = SR_OK /\
  result (sr_log_loglevel_get (final r)) = L /\
  trace r =
    trace (call_sr_log_cb e SR_LOG_DBG "libsigrok loglevel set to %d." [va_int L]
             (set_cur_loglevel L s)) /\
  (sr_log_cb s = cb_sr_logv -> (trace r <> [] <-> SR_LOG_DBG <= L)).
Proof.
  intros HL. cbv zeta. rewrite sr_log_loglevel_set_ok by exact HL.
  unfold result, final, trace; simpl.
  split; [reflexivity|]. split; [reflexivity|]. split; [reflexivity|].
  intros H. split.
  - intros Hne. unfold sr_dbg, call_sr_log_cb in Hne. simpl sr_log_cb in Hne.
    rewrite H in Hne. destruct (Z_le_gt_dec SR_LOG_DBG L) as [Hle|Hgt]; [exact Hle|].
    rewrite sr_logv_hidden in Hne by (simpl; lia). now contradiction Hne.
  - intros Hle. unfold sr_dbg, call_sr_log_cb. simpl sr_log_cb. rewrite H.
    rewrite sr_logv_eq. simpl cur_loglevel.
    replace (SR_LOG_DBG >? L) with false by (symmetry; rewrite Z.gtb_ltb; apply Z.ltb_ge; lia).
    apply message_events_not_nil.
Qed.

Lemma valid_level_committed_witness :
  let s := set_cur_loglevel 5 (@initial_state upstream_h) in
  (@SR_LOG_NONE upstream_h <= 1 <= @SR_LOG_SPEW upstream_h) /\
  result (@sr_log_loglevel_set upstream_h example_env 1 s) = 0 /\
  result (sr_log_loglevel_get (final (@sr_log_loglevel_set upstream_h example_env 1 s))) = 1 /\
  ~ (trace (@sr_log_loglevel_set upstream_h example_env 1 s) <> []).
Proof.
  split; [vm_compute; split; discriminate|].
  pose proof (@valid_level_committed upstream_h example_env 1
                (set_cur_loglevel 5 (@initial_state upstream_h))
                ltac:(vm_compute; split; discriminate)) as (A & B & _ & D).
  split; [exact A|]. split; [exact B|].
  intros Hne. apply (proj1 (D eq_refl)) in Hne. vm_compute in Hne. now apply Hne.
Defined.

(** ** The callback registry *)

(** C7: [sr_log_callback_set] with a NULL callback returns SR_ERR_ARG and
    leaves the callback and its data as they were; with a callback it returns
    SR_OK, writes nothing and replaces both the callback and the data, NULL
    data included. *)
Theorem callback_set_null_or_replace {h : libsigrok_h} (e : environment)
    (f : sr_log_callback) (cb_data : Z) (s : state) :
  (result (sr_log_callback_set e None cb_data s) = SR_ERR_ARG /\
   final (sr_log_callback_set e None cb_data s) = s) /\
  (sr_log_callback_set e (Some f) cb_data s =
     (SR_OK, set_sr_log_cb_data cb_data (set_sr_log_cb f s), []) /\
   sr_log_cb (final (sr_log_callback_set e (Some f) cb_data s)) = f /\
   sr_log_cb_data (final (sr_log_callback_set e (Some f) cb_data s)) = cb_data /\
   sr_log_cb_data (final (sr_log_callback_set e (Some f) NULL s)) = NULL).
Proof.
  split.
  - unfold sr_log_callback_set, sr_err. rewrite bind_call_sr_log_cb.
    cbv zeta. unfold ret, result, final; simpl. split; reflexivity.
  - repeat split.
Qed.

(** C8: [sr_log_callback_set_default] returns SR_OK in every state, makes
    [sr_logv] the callback and NULL its data, and records no write and no
    call of a callback. *)
Theorem callback_set_default_unconditional {h : libsigrok_h} (s : state) :
  sr_log_callback_set_default s =
    (SR_OK, set_sr_log_cb_data NULL (set_sr_log_cb cb_sr_logv s), []) /\
  sr_log_cb (final (sr_log_callback_set_default s)) = cb_sr_logv /\
  sr_log_cb_data (final (sr_log_callback_set_default s)) = NULL.
Proof. repeat split. Qed.

(** C10: with a callback of the application registered, each of [sr_spew],
    [sr_dbg], [sr_info], [sr_warn] and [sr_err] makes exactly one call of it,
    with the registered data, its own level, the format and the arguments, and
    returns what it returns; the threshold is not looked at and nothing is
    written to stderr. *)
Theorem custom_callback_bypasses_threshold {h : libsigrok_h} (e : environment) (f : nat)
    (format : string) (args : va_list) (s : state) :
  sr_log_cb s = cb_user f ->
  let called level :=
    (user_cb e f (sr_log_cb_data s) level format args, s,
     [ev_call f (sr_log_cb_data s) level format args]) in
  sr_spew e format args s = called SR_LOG_SPEW /\
  sr_dbg e format args s = called SR_LOG_DBG /\
  sr_info e format args s = called SR_LOG_INFO /\
  sr_warn e format args s = called SR_LOG_WARN /\
  sr_err e format args s = called SR_LOG_ERR.
Proof.
  intros Hcb. cbv zeta.
  unfold sr_spew, sr_dbg, sr_info, sr_warn, sr_err, call_sr_log_cb.
  rewrite Hcb. repeat split.
Qed.

Lemma custom_callback_bypasses_threshold_witness :
  let s := set_cur_loglevel 0 (set_sr_log_cb (cb_user 7) (@initial_state upstream_h)) in
  sr_log_cb s = cb_user 7%nat /\
  @sr_spew upstream_h example_env "x" [] s = (7, s, [ev_call 7 NULL 5 "x" []]).
Proof.
  split; [reflexivity|].
  exact (proj1 (@custom_callback_bypasses_threshold upstream_h example_env 7 "x" []
                  (set_cur_loglevel 0 (set_sr_log_cb (cb_user 7) (@initial_state upstream_h)))
                  eq_refl)).
Defined.

(** ** The log domain *)

Lemma c_str_terminated (b rest : string) : c_str (c_str b ++ String NUL rest) = c_str b.
Proof.
  induction b as [|c b IH]; simpl; [reflexivity|].
  destruct (Ascii.eqb c NUL) eqn:E; simpl; [reflexivity|].
  now rewrite E, IH.
Qed.

Lemma sr_log_logdomain_set_final {h : libsigrok_h} (e : environment) (text : string) (s : state) :
  sr_log_logdomain_set e (Some text) s =
  (SR_OK, set_sr_log_domain (snprintf_s (sr_log_domain s) LOGDOMAIN_MAXLEN text) s,
   trace (sr_dbg e "Log domain set to '%s'."
            [va_str (snprintf_s (sr_log_domain s) LOGDOMAIN_MAXLEN text)]
            (set_sr_log_domain (snprintf_s (sr_log_domain s) LOGDOMAIN_MAXLEN text) s))).
Proof.
  unfold sr_log_logdomain_set, sr_dbg. unfold bind at 1, modify. unfold bind at 1, gets.
  cbn [set_sr_log_domain sr_log_domain].
  rewrite bind_call_sr_log_cb. cbv zeta.
  unfold ret, result, final, trace; simpl. now rewrite app_nil_r.
Qed.

Lemma sr_log_logdomain_get_copy (s : state) :
  let r := sr_log_logdomain_get s in
  result r = List.length (heap s) /\
  sr_log_domain (final r) = sr_log_domain s /\
  string_at (result r) (final r) = c_str (sr_log_domain s).
Proof.
  cbv zeta. unfold sr_log_logdomain_get, g_strdup, bind, gets, result, final, string_at.
  simpl. repeat split.
  rewrite app_nth2 by lia. rewrite Nat.sub_diag. simpl nth. apply c_str_terminated.
Qed.

(** The domain read back after it was set: the first 29 bytes of the text
    (the buffer has 31 bytes, [snprintf] is given 30). *)
Lemma logdomain_set_get {h : libsigrok_h} (e : environment) (text : string) (s : state) :
  String.length (sr_log_domain s) = S LOGDOMAIN_MAXLEN ->
  let r := sr_log_logdomain_get (final (sr_log_logdomain_set e (Some text) s)) in
  string_at (result r) (final r) = substring 0 29 (c_str text) /\
  String.length (sr_log_domain (final r)) = S LOGDOMAIN_MAXLEN.
Proof.
  intros Hlen. cbv zeta. rewrite sr_log_logdomain_set_final.
  change (final (SR_OK,
            set_sr_log_domain (snprintf_s (sr_log_domain s) LOGDOMAIN_MAXLEN text) s,
            trace (sr_dbg e "Log domain set to '%s'."
                     [va_str (snprintf_s (sr_log_domain s) LOGDOMAIN_MAXLEN text)]
                     (set_sr_log_domain
                        (snprintf_s (sr_log_domain s) LOGDOMAIN_MAXLEN text) s))))
    with (set_sr_log_domain (snprintf_s (sr_log_domain s) LOGDOMAIN_MAXLEN text) s).
  destruct (sr_log_logdomain_get_copy
              (set_sr_log_domain (snprintf_s (sr_log_domain s) LOGDOMAIN_MAXLEN text) s))
    as (_ & Hd & Hc).
  rewrite Hc, Hd. cbn [sr_log_domain set_sr_log_domain]. split.
  - apply (c_str_snprintf_s 29). rewrite Hlen. unfold LOGDOMAIN_MAXLEN. lia.
  - now rewrite length_snprintf_s.
Qed.

Lemma length_poke_block (p i : nat) (c : ascii) : forall hp,
  List.length (poke_block p i c hp) = List.length hp.
Proof.
  induction p as [|p IH]; intros [|b hp]; simpl; auto.
Qed.

(** The pointer [sr_log_logdomain_get] returns is to a block of its own: a
    byte stored anywhere in the heap, that block included, changes neither the
    domain nor what the next call returns, which is again a new block. *)
Lemma logdomain_get_independent (p i : nat) (c : ascii) (s : state) :
  let r1 := sr_log_logdomain_get s in
  let r2 := sr_log_logdomain_get (poke p i c (final r1)) in
  string_at (result r2) (final r2) = c_str (sr_log_domain s) /\
  result r2 <> result r1.
Proof.
  cbv zeta.
  destruct (sr_log_logdomain_get_copy s) as (Hp1 & Hd1 & _).
  destruct (sr_log_logdomain_get_copy (poke p i c (final (sr_log_logdomain_get s))))
    as (Hp2 & _ & Hc2).
  rewrite Hc2, Hp2, Hp1. unfold poke. simpl sr_log_domain. simpl heap.
  rewrite length_poke_block. split; [reflexivity|].
  unfold sr_log_logdomain_get, g_strdup, bind, gets, final. simpl.
  rewrite length_app. simpl. lia.
Qed.

(** C2: a domain of 30 characters, the documented maximum, is accepted, and
    the copy read back has its first 29 characters only; a byte stored in the
    copy does not change what is read back next. *)
Theorem logdomain_of_30_chars_reads_29 :
  let text := "012345678901234567890123456789" in
  let r0 := @sr_log_logdomain_set upstream_h example_env (Some text) (@initial_state upstream_h) in
  let r1 := sr_log_logdomain_get (final r0) in
  let r2 := sr_log_logdomain_get (poke (result r1) 0 "X" (final r1)) in
  String.length text = 30%nat /\
  result r0 = @SR_OK upstream_h /\
  string_at (result r1) (final r1) = "01234567890123456789012345678" /\
  string_at (result r1) (final r1) <> substring 0 30 text /\
  string_at (result r1) (poke (result r1) 0 "X" (final r1)) = "X1234567890123456789012345678" /\
  string_at (result r2) (final r2) = "01234567890123456789012345678".
Proof. vm_compute. repeat split. discriminate. Qed.

(** ** The time of the timestamp *)

Lemma vformat_06u (n : Z) : vformat ",%06u " [va_uint n] = "," ++ zero_pad 6 (fmt_u n) ++ " ".
Proof. reflexivity. Qed.

Lemma vformat_03u (n : Z) : vformat ",%03u " [va_uint n] = "," ++ zero_pad 3 (fmt_u n) ++ " ".
Proof. reflexivity. Qed.

(** With a clock at or after the epoch, the remainders log.c prints are the
    mathematical ones and the cast to [guint] keeps them. *)
Lemma microsecond_remainder (dt_us : Z) :
  0 <= dt_us -> to_guint (c_rem dt_us 1000000) = dt_us mod 1000000.
Proof.
  intros H. unfold to_guint, c_rem. rewrite Z.rem_mod_nonneg by lia.
  pose proof (Z.mod_pos_bound dt_us 1000000 ltac:(lia)).
  apply Z.mod_small. change (2 ^ 32) with 4294967296. lia.
Qed.

Lemma millisecond_remainder (dt_us : Z) :
  0 <= dt_us -> to_guint (c_rem (c_div dt_us 1000) 1000) = (dt_us / 1000) mod 1000.
Proof.
  intros H. unfold to_guint, c_rem, c_div. rewrite Z.quot_div_nonneg by lia.
  rewrite Z.rem_mod_nonneg by (try apply Z.div_pos; lia).
  pose proof (Z.mod_pos_bound (dt_us / 1000) 1000 ltac:(lia)).
  apply Z.mod_small. change (2 ^ 32) with 4294967296. lia.
Qed.

(** HHMMSS is six digits, two for each field, when the fields are below 100. *)
Lemma strftime_HMS_digits (t : tm) :
  0 <= tm_hour t < 100 -> 0 <= tm_min t < 100 -> 0 <= tm_sec t < 100 ->
  strftime "%H%M%S" t =
  fixed_digits 2 (tm_hour t) ++ fixed_digits 2 (tm_min t) ++ fixed_digits 2 (tm_sec t).
Proof.
  intros Hh Hm Hs.
  change (strftime "%H%M%S" t)
    with (two_digits (tm_hour t) ++ two_digits (tm_min t) ++ two_digits (tm_sec t) ++ "").
  unfold two_digits.
  rewrite !zero_pad_fmt_u by (try lia; simpl Z.of_nat; lia).
  now rewrite append_nil_r.
Qed.




(** ** The scenarios of the spec, evaluated *)

Example scenario_default_error :
  @sr_err upstream_h example_env "failed: %d" [va_int 42] (@initial_state upstream_h) =
  (10, @initial_state upstream_h,
   [ev_stderr "sr: "; ev_stderr "failed: 42"; ev_stderr (String "010" "")]).
Proof. vm_compute. reflexivity. Qed.

Example scenario_warn_hidden_at_ERR :
  let s := final (@sr_log_loglevel_set upstream_h example_env 1 (@initial_state upstream_h)) in
  @sr_warn upstream_h example_env "should be hidden" [] s = (0, s, []).
Proof. vm_compute. reflexivity. Qed.

Example scenario_time_ms :
  let s0 := final (@sr_log_loglevel_set upstream_h example_env 3 (@initial_state upstream_h)) in
  let s := final (@sr_log_logopts_set upstream_h example_env 6 s0) in
  stderr_text (trace (@sr_info upstream_h example_env "x" [] s)) =
  "080559,123 sr: x" ++ String "010" "".
Proof. vm_compute. reflexivity. Qed.

Example scenario_domain_of_40_chars :
  let text := "0123456789012345678901234567890123456789" in
  let s := final (@sr_log_logdomain_set upstream_h example_env (Some text)
                    (@initial_state upstream_h)) in
  let r := sr_log_logdomain_get s in
  string_at (result r) (final r) = "01234567890123456789012345678".
Proof. vm_compute. reflexivity. Qed.

(** * Further properties of log.c *)

(** ** What each setter does to the state *)

Lemma sr_log_logdomain_set_null {h : libsigrok_h} (e : environment) (s : state) :
  sr_log_logdomain_set e None s =
  (SR_ERR_ARG, s,
   trace (call_sr_log_cb e SR_LOG_ERR "log: %s: logdomain was NULL"
            [va_str "sr_log_logdomain_set"] s)).
Proof.
  unfold sr_log_logdomain_set, sr_err. rewrite bind_call_sr_log_cb. cbv zeta.
  unfold ret, result, final, trace; simpl. now rewrite app_nil_r.
Qed.

Lemma sr_log_callback_set_null {h : libsigrok_h} (e : environment) (cb_data : Z) (s : state) :
  sr_log_callback_set e None cb_data s =
  (SR_ERR_ARG, s,
   trace (call_sr_log_cb e SR_LOG_ERR "log: %s: cb was NULL"
            [va_str "sr_log_callback_set"] s)).
Proof.
  unfold sr_log_callback_set, sr_err. rewrite bind_call_sr_log_cb. cbv zeta.
  unfold ret, result, final, trace; simpl. now rewrite app_nil_r.
Qed.

Lemma sr_log_loglevel_set_cases {h : libsigrok_h} (e : environment) (L : Z) (s : state) :
  (SR_LOG_NONE <= L <= SR_LOG_SPEW /\
   final (sr_log_loglevel_set e L s) = set_cur_loglevel L s) \/
  ((L < SR_LOG_NONE \/ SR_LOG_SPEW < L) /\ final (sr_log_loglevel_set e L s) = s).
Proof.
  destruct (Z_lt_dec L SR_LOG_NONE) as [H1|H1];
    [right; split; [lia | now rewrite sr_log_loglevel_set_inv by lia]|].
  destruct (Z_lt_dec SR_LOG_SPEW L) as [H2|H2];
    [right; split; [lia | now rewrite sr_log_loglevel_set_inv by lia]|].
  left; split; [lia | now rewrite sr_log_loglevel_set_ok by lia].
Qed.

Lemma sr_log_logopts_set_cases {h : libsigrok_h} (e : environment) (m : Z) (s : state) :
  (SR_LOG_NOOPTS <= m <= all_logopts /\
   final (sr_log_logopts_set e m s) = set_cur_logopts m s) \/
  ((m < SR_LOG_NOOPTS \/ all_logopts < m) /\ final (sr_log_logopts_set e m s) = s).
Proof.
  unfold all_logopts.
  destruct (Z_lt_dec m SR_LOG_NOOPTS) as [H1|H1];
    [right; split; [lia | now rewrite sr_log_logopts_set_inv by lia]|].
  destruct (Z_lt_dec
              (Z.lor (Z.lor (Z.lor (Z.lor SR_LOG_DATE SR_LOG_TIME) SR_LOG_TIME_MS)
                        SR_LOG_TIME_US) SR_LOG_UTC) m) as [H2|H2];
    [right; split; [lia | now rewrite sr_log_logopts_set_inv by lia]|].
  left; split; [lia | now rewrite sr_log_logopts_set_ok by lia].
Qed.

Lemma sr_log_logdomain_set_cases {h : libsigrok_h} (e : environment)
    (logdomain : option string) (s : state) :
  final (sr_log_logdomain_set e logdomain s) =
  match logdomain with
  | None => s
  | Some text => set_sr_log_domain (snprintf_s (sr_log_domain s) LOGDOMAIN_MAXLEN text) s
  end.
Proof.
  destruct logdomain as [text|].
  - now rewrite sr_log_logdomain_set_final.
  - now rewrite sr_log_logdomain_set_null.
Qed.

Lemma sr_log_callback_set_cases {h : libsigrok_h} (e : environment)
    (cb : option sr_log_callback) (cb_data : Z) (s : state) :
  final (sr_log_callback_set e cb cb_data s) =
  match cb with
  | None => s
  | Some f => set_sr_log_cb_data cb_data (set_sr_log_cb f s)
  end.
Proof.
  destruct cb as [f|]; [reflexivity | now rewrite sr_log_callback_set_null].
Qed.

(** X1: a mask from SR_LOG_NOOPTS to the union of all flags is accepted and
    committed, so that [sr_log_logopts_get] returns it; the other statics keep
    their values, and what the call does is the [sr_dbg] confirmation made in
    the state that already holds the new mask. *)
Theorem valid_options_committed {h : libsigrok_h} (e : environment) (m : Z) (s : state) :
  SR_LOG_NOOPTS <= m <= all_logopts ->
  let r := sr_log_logopts_set e m s in
  result r = SR_OK /\
  result (sr_log_logopts_get (final r)) = m /\
  result (sr_log_loglevel_get (final r)) = cur_loglevel s /\
  sr_log_cb (final r) = sr_log_cb s /\
  sr_log_cb_data (final r) = sr_log_cb_data s /\
  sr_log_domain (final r) = sr_log_domain s /\
  trace r =
    trace (call_sr_log_cb e SR_LOG_DBG "libsigrok log options set to %d." [va_int m]
             (set_cur_logopts m s)).
Proof.
  intros Hm. cbv zeta. rewrite sr_log_logopts_set_ok by exact Hm.
  repeat split.
Qed.

Lemma valid_options_committed_witness :
  let s := @initial_state upstream_h in
  (@SR_LOG_NOOPTS upstream_h <= 6 <= @all_logopts upstream_h) /\
  result (@sr_log_logopts_set upstream_h example_env 6 s) = 0 /\
  result (sr_log_logopts_get (final (@sr_log_logopts_set upstream_h example_env 6 s))) = 6.
Proof.
  split; [vm_compute; split; discriminate|].
  pose proof (@valid_options_committed upstream_h example_env 6 (@initial_state upstream_h)
                ltac:(vm_compute; split; discriminate)) as (A & B & _).
  split; assumption.
Defined.

(** X2: [sr_log_logdomain_set] with a NULL pointer returns SR_ERR_ARG and
    leaves the state, the domain included, as it was; what it does is one
    report through the registered callback at severity ERROR, which the
    default callback under a threshold of at least ERROR writes as a line that
    names the function. *)
Theorem logdomain_set_null_rejected {h : libsigrok_h} (e : environment) (s : state) :
  let r := sr_log_logdomain_set e None s in
  result r = SR_ERR_ARG /\
  final r = s /\
  trace r =
    trace (call_sr_log_cb e SR_LOG_ERR "log: %s: logdomain was NULL"
             [va_str "sr_log_logdomain_set"] s) /\
  (sr_log_cb s = cb_sr_logv -> SR_LOG_ERR <= cur_loglevel s ->
   exists pre,
     trace r =
     (pre ++ [ev_stderr "log: sr_log_logdomain_set: logdomain was NULL";
              ev_stderr (String "010" "")])%list).
Proof.
  cbv zeta. rewrite sr_log_logdomain_set_null.
  split; [reflexivity|]. split; [reflexivity|]. split; [reflexivity|].
  intros Hcb Hlvl. unfold trace at 1. simpl snd.
  unfold call_sr_log_cb. rewrite Hcb.
  apply (sr_logv_shown e (sr_log_cb_data s) SR_LOG_ERR "log: %s: logdomain was NULL"
           [va_str "sr_log_logdomain_set"] s Hlvl).
Qed.

Lemma logdomain_set_null_rejected_witness :
  let s := @initial_state upstream_h in
  (sr_log_cb s = cb_sr_logv /\ @SR_LOG_ERR upstream_h <= cur_loglevel s) /\
  exists pre,
    trace (@sr_log_logdomain_set upstream_h example_env None s) =
    (pre ++ [ev_stderr "log: sr_log_logdomain_set: logdomain was NULL";
             ev_stderr (String "010" "")])%list.
Proof.
  split; [split; [reflexivity | vm_compute; discriminate]|].
  apply (@logdomain_set_null_rejected upstream_h example_env (@initial_state upstream_h));
    [reflexivity | vm_compute; discriminate].
Defined.

(** ** The log domain, set and read back *)

Lemma substring_0_all (n : nat) : forall s,
  (String.length s <= n)%nat -> substring 0 n s = s.
Proof.
  induction n as [|n IH]; intros [|c s] H; simpl in *; try reflexivity; try lia.
  f_equal. apply IH. lia.
Qed.

Lemma length_substring_0 (n : nat) : forall s,
  String.length (substring 0 n s) = Nat.min n (String.length s).
Proof.
  induction n as [|n IH]; intros [|c s]; simpl; try reflexivity.
  now rewrite IH.
Qed.

Lemma first_byte_set_c_str (buf : string) :
  c_str buf = "" -> first_byte_set buf = false.
Proof.
  destruct buf as [|c rest]; simpl; [reflexivity|].
  destruct (Ascii.eqb c NUL); [reflexivity | discriminate].
Qed.

(** X3: after [sr_log_logdomain_set] with a text, the copy
    [sr_log_logdomain_get] returns is the first 29 bytes of the text: the
    whole text when it has at most 29 bytes, and exactly 29 bytes when it has
    more. *)
Theorem logdomain_round_trip {h : libsigrok_h} (e : environment) (text : string) (s : state) :
  String.length (sr_log_domain s) = S LOGDOMAIN_MAXLEN ->
  let r := sr_log_logdomain_get (final (sr_log_logdomain_set e (Some text) s)) in
  string_at (result r) (final r) = substring 0 29 (c_str text) /\
  ((String.length (c_str text) <= 29)%nat -> string_at (result r) (final r) = c_str text) /\
  ((29 < String.length (c_str text))%nat ->
   String.length (string_at (result r) (final r)) = 29%nat).
Proof.
  intros Hlen. cbv zeta.
  destruct (logdomain_set_get e text s Hlen) as [Hget _].
  cbv zeta in Hget. rewrite Hget. split; [reflexivity|]. split.
  - intros Hshort. now apply substring_0_all.
  - intros Hlong. rewrite length_substring_0. lia.
Qed.

Lemma logdomain_round_trip_witness :
  let s := @initial_state upstream_h in
  let r := sr_log_logdomain_get
             (final (@sr_log_logdomain_set upstream_h example_env (Some "fx2lafw: ") s)) in
  (String.length (sr_log_domain s) = S LOGDOMAIN_MAXLEN /\
   (String.length (c_str "fx2lafw: ") <= 29)%nat) /\
  string_at (result r) (final r) = "fx2lafw: ".
Proof.
  split; [split; [reflexivity | vm_compute; lia]|].
  apply (@logdomain_round_trip upstream_h example_env "fx2lafw: " (@initial_state upstream_h));
    [reflexivity | vm_compute; lia].
Defined.

(** X5: after [sr_log_logdomain_set] with a text, what the default callback
    writes for a message that passes the filter is the timestamp, the first 29
    bytes of the text, the message and a newline; after an empty text no
    domain is written at all. *)
Theorem logdomain_prefix_after_set {h : libsigrok_h} (e : environment) (text : string)
    (cb_data lvl : Z) (format : string) (args : va_list) (s : state) :
  String.length (sr_log_domain s) = S LOGDOMAIN_MAXLEN ->
  lvl <= cur_loglevel s ->
  let s' := final (sr_log_logdomain_set e (Some text) s) in
  stderr_text (trace (sr_logv e cb_data lvl format args s')) =
    stderr_text (timestamp_events e (cur_logopts s)) ++
    substring 0 29 (c_str text) ++ vformat format args ++ String "010" "" /\
  (c_str text = "" ->
   trace (sr_logv e cb_data lvl format args s') =
   (timestamp_events e (cur_logopts s) ++
    [ev_stderr (vformat format args); ev_stderr (String "010" "")])%list).
Proof.
  intros Hlen HS. cbv zeta. rewrite sr_log_logdomain_set_cases, sr_logv_eq.
  cbn [cur_loglevel cur_logopts sr_log_domain set_sr_log_domain].
  replace (lvl >? cur_loglevel s) with false
    by (symmetry; rewrite Z.gtb_ltb; apply Z.ltb_ge; lia).
  cbv zeta. unfold trace. cbn [snd].
  assert (Hc : c_str (snprintf_s (sr_log_domain s) LOGDOMAIN_MAXLEN text) =
               substring 0 29 (c_str text))
    by (apply (c_str_snprintf_s 29); rewrite Hlen; unfold LOGDOMAIN_MAXLEN; lia).
  split.
  - now rewrite stderr_text_app, stderr_text_message, Hc.
  - intros Hempty. unfold message_events.
    rewrite first_byte_set_c_str; [reflexivity|].
    rewrite Hc, Hempty. reflexivity.
Qed.

Lemma logdomain_prefix_after_set_witness :
  let s := @initial_state upstream_h in
  let s' := final (@sr_log_logdomain_set upstream_h example_env (Some "") s) in
  (String.length (sr_log_domain s) = S LOGDOMAIN_MAXLEN /\ 1 <= cur_loglevel s /\
   c_str "" = "") /\
  trace (@sr_logv upstream_h example_env NULL 1 "x" [] s') =
  [ev_stderr "x"; ev_stderr (String "010" "")].
Proof.
  split; [split; [reflexivity | split; [vm_compute; discriminate | reflexivity]]|].
  apply (proj2 (@logdomain_prefix_after_set upstream_h example_env "" NULL 1 "x" []
                  (@initial_state upstream_h) eq_refl ltac:(vm_compute; discriminate))).
  reflexivity.
Defined.

(** ** The line the default callback writes *)

Lemma time_fraction_spec (us_set ms_set : bool) (dt_us : Z) :
  0 <= dt_us ->
  (if us_set then vformat ",%06u " [va_uint (to_guint (c_rem dt_us 1000000))]
   else if ms_set then vformat ",%03u " [va_uint (to_guint (c_rem (c_div dt_us 1000) 1000))]
   else " ") = spec_time_fraction us_set ms_set dt_us.
Proof.
  intros Ht. unfold spec_time_fraction. destruct us_set; [|destruct ms_set].
  - rewrite vformat_06u, microsecond_remainder by exact Ht.
    rewrite zero_pad_fmt_u; [reflexivity | lia |].
    pose proof (Z.mod_pos_bound dt_us 1000000 ltac:(lia)). simpl Z.of_nat. lia.
  - rewrite vformat_03u, millisecond_remainder by exact Ht.
    rewrite zero_pad_fmt_u; [reflexivity | lia |].
    pose proof (Z.mod_pos_bound (dt_us / 1000) 1000 ltac:(lia)). simpl Z.of_nat. lia.
  - reflexivity.
Qed.

(** X6: when the message passes the filter, the clock is at or after the
    epoch and the conversion chosen by the UTC flag ([gmtime_r] with it,
    [localtime_r] without) gives [t], the text the default callback writes is
    the date of [t] and a space if DATE is set, then the time of [t] and its
    fraction if one of TIME, TIME_MS, TIME_US is set, then the domain, the
    message and a newline, and nothing else. *)
Theorem sr_logv_line {h : libsigrok_h} (e : environment) (cb_data lvl : Z)
    (format : string) (args : va_list) (s : state) (t : tm) :
  lvl <= cur_loglevel s ->
  0 <= g_get_real_time e ->
  (if has (cur_logopts s) SR_LOG_UTC
   then gmtime_r e (c_div (g_get_real_time e) 1000000)
   else localtime_r e (c_div (g_get_real_time e) 1000000)) = Some t ->
  stderr_text (trace (sr_logv e cb_data lvl format args s)) =
  (if has (cur_logopts s) SR_LOG_DATE then strftime "%Y%m%d " t else "") ++
  (if (has (cur_logopts s) SR_LOG_TIME || has (cur_logopts s) SR_LOG_TIME_MS
       || has (cur_logopts s) SR_LOG_TIME_US)%bool
   then strftime "%H%M%S" t ++
        spec_time_fraction (has (cur_logopts s) SR_LOG_TIME_US)
          (has (cur_logopts s) SR_LOG_TIME_MS) (g_get_real_time e)
   else "") ++
  c_str (sr_log_domain s) ++ vformat format args ++ String "010" "".
Proof.
  intros Hlvl Ht Hconv. rewrite sr_logv_eq.
  replace (lvl >? cur_loglevel s) with false
    by (symmetry; rewrite Z.gtb_ltb; apply Z.ltb_ge; lia).
  cbv zeta. unfold trace. cbn [snd].
  rewrite stderr_text_app, stderr_text_message.
  unfold timestamp_events, broken_down_time. cbv zeta.
  rewrite Hconv, (time_fraction_spec _ _ _ Ht).
  destruct (has (cur_logopts s) SR_LOG_DATE), (has (cur_logopts s) SR_LOG_TIME),
    (has (cur_logopts s) SR_LOG_TIME_MS), (has (cur_logopts s) SR_LOG_TIME_US);
    cbn [orb app stderr_text]; rewrite ?append_nil_r, ?append_assoc; reflexivity.
Qed.

Lemma sr_logv_line_witness :
  let s := set_cur_logopts 21 (@initial_state upstream_h) in
  (1 <= cur_loglevel s /\ 0 <= g_get_real_time example_env) /\
  stderr_text (trace (@sr_logv upstream_h example_env NULL 1 "failed: %d" [va_int 42] s)) =
  "20240109 070559,123 sr: failed: 42" ++ String "010" "".
Proof.
  split; [vm_compute; split; discriminate|].
  exact (@sr_logv_line upstream_h example_env NULL 1 "failed: %d" [va_int 42]
           (set_cur_logopts 21 (@initial_state upstream_h))
           {| tm_year := 124; tm_mon := 0; tm_mday := 9;
              tm_hour := 7; tm_min := 5; tm_sec := 59 |}
           ltac:(vm_compute; discriminate) ltac:(vm_compute; discriminate) eq_refl).
Defined.

(** X7: when none of DATE, TIME, TIME_MS, TIME_US is set, the UTC flag
    changes nothing: for a message that passes the filter the default
    callback writes the domain (if not empty), the message and a newline,
    returns the length of the message, and this in every environment (the
    clock and the conversions play no part). *)
Theorem sr_logv_without_timestamp {h : libsigrok_h} (e e' : environment) (cb_data lvl : Z)
    (format : string) (args : va_list) (s : state) :
  lvl <= cur_loglevel s ->
  Z.land (cur_logopts s)
    (Z.lor (Z.lor (Z.lor SR_LOG_DATE SR_LOG_TIME) SR_LOG_TIME_MS) SR_LOG_TIME_US) = 0 ->
  sr_logv e cb_data lvl format args s =
    (Z.of_nat (String.length (vformat format args)), s,
     message_events (sr_log_domain s) format args) /\
  sr_logv e' cb_data lvl format args s = sr_logv e cb_data lvl format args s.
Proof.
  intros Hlvl Hopts.
  assert (Hno : (has (cur_logopts s) SR_LOG_DATE || has (cur_logopts s) SR_LOG_TIME
                 || has (cur_logopts s) SR_LOG_TIME_MS
                 || has (cur_logopts s) SR_LOG_TIME_US)%bool = false)
    by (rewrite <- !has_lor; unfold has; rewrite Hopts; reflexivity).
  assert (Heq : forall e0, sr_logv e0 cb_data lvl format args s =
                  (Z.of_nat (String.length (vformat format args)), s,
                   message_events (sr_log_domain s) format args)).
  { intros e0. rewrite sr_logv_eq.
    replace (lvl >? cur_loglevel s) with false
      by (symmetry; rewrite Z.gtb_ltb; apply Z.ltb_ge; lia).
    unfold timestamp_events. cbv zeta. rewrite Hno. reflexivity. }
  split; [apply Heq | now rewrite !Heq].
Qed.

Lemma sr_logv_without_timestamp_witness :
  let s := set_cur_logopts 16 (@initial_state upstream_h) in
  (1 <= cur_loglevel s /\
   Z.land (cur_logopts s)
     (Z.lor (Z.lor (Z.lor (@SR_LOG_DATE upstream_h) (@SR_LOG_TIME upstream_h))
               (@SR_LOG_TIME_MS upstream_h)) (@SR_LOG_TIME_US upstream_h)) = 0) /\
  @sr_logv upstream_h example_env NULL 1 "x" [] s =
  (1, s, [ev_stderr "sr: "; ev_stderr "x"; ev_stderr (String "010" "")]).
Proof.
  split; [vm_compute; split; [discriminate | reflexivity]|].
  exact (proj1 (@sr_logv_without_timestamp upstream_h example_env example_env NULL 1 "x" []
                  (set_cur_logopts 16 (@initial_state upstream_h))
                  ltac:(vm_compute; discriminate) eq_refl)).
Defined.

(** X8: when a timestamp is asked for and the conversion chosen by the UTC
    flag fails, the default callback first writes a diagnostic that names the
    conversion and carries [errno] and its message; the message and the
    newline are still written last, and the length of the diagnostic is part
    of the value returned. *)
Theorem sr_logv_conversion_failure {h : libsigrok_h} (e : environment) (cb_data lvl : Z)
    (format : string) (args : va_list) (s : state) :
  lvl <= cur_loglevel s ->
  (has (cur_logopts s) SR_LOG_DATE || has (cur_logopts s) SR_LOG_TIME
   || has (cur_logopts s) SR_LOG_TIME_MS || has (cur_logopts s) SR_LOG_TIME_US)%bool = true ->
  (if has (cur_logopts s) SR_LOG_UTC
   then gmtime_r e (c_div (g_get_real_time e) 1000000)
   else localtime_r e (c_div (g_get_real_time e) 1000000)) = None ->
  let diagnostic :=
    vformat (if has (cur_logopts s) SR_LOG_UTC then "gmtime_r() failed: %d %s "
             else "localtime_r() failed: %d %s ")
      [va_int (errno e); va_str (strerror e (errno e))] in
  let r := sr_logv e cb_data lvl format args s in
  (exists rest pre,
     trace r = ev_stderr diagnostic :: rest /\
     rest = (pre ++ [ev_stderr (vformat format args); ev_stderr (String "010" "")])%list) /\
  Z.of_nat (String.length diagnostic) + Z.of_nat (String.length (vformat format args))
    <= result r.
Proof.
  intros Hlvl Hany Hconv. cbv zeta. rewrite sr_logv_eq.
  replace (lvl >? cur_loglevel s) with false
    by (symmetry; rewrite Z.gtb_ltb; apply Z.ltb_ge; lia).
  cbv zeta. unfold trace, result. cbn [fst snd].
  unfold timestamp_events. cbv zeta. rewrite Hany, Hconv.
  cbn [app]. split.
  - destruct (message_events_end (sr_log_domain s) format args
                ((if has (cur_logopts s) SR_LOG_DATE
                  then [ev_stderr (strftime "%Y%m%d " (broken_down_time e (cur_logopts s)))]
                  else []) ++
                 (if (has (cur_logopts s) SR_LOG_TIME || has (cur_logopts s) SR_LOG_TIME_MS
                      || has (cur_logopts s) SR_LOG_TIME_US)%bool
                  then
                    [ev_stderr (strftime "%H%M%S" (broken_down_time e (cur_logopts s)));
                     ev_stderr
                       (if has (cur_logopts s) SR_LOG_TIME_US
                        then vformat ",%06u "
                               [va_uint (to_guint (c_rem (g_get_real_time e) 1000000))]
                        else if has (cur_logopts s) SR_LOG_TIME_MS
                        then vformat ",%03u "
                               [va_uint
                                  (to_guint (c_rem (c_div (g_get_real_time e) 1000) 1000))]
                        else " ")]
                  else []))%list) as [pre Hpre].
    eexists. exists pre. split; [reflexivity | exact Hpre].
  - cbn [stderr_text]. rewrite length_append. lia.
Qed.

Lemma sr_logv_conversion_failure_witness :
  let e := {| g_get_real_time := 1704783959123456;
              gmtime_r := fun _ => None;
              localtime_r := localtime_r example_env;
              dt_tm_unset := dt_tm_unset example_env;
              errno := 75;
              strerror := fun _ => "Value too large for defined data type";
              user_cb := user_cb example_env |} in
  let s := set_cur_logopts 18 (@initial_state upstream_h) in
  exists rest,
    trace (@sr_logv upstream_h e NULL 1 "x" [] s) =
    ev_stderr "gmtime_r() failed: 75 Value too large for defined data type " :: rest.
Proof.
  cbv zeta.
  destruct (@sr_logv_conversion_failure upstream_h
              {| g_get_real_time := 1704783959123456;
                 gmtime_r := fun _ => None;
                 localtime_r := localtime_r example_env;
                 dt_tm_unset := dt_tm_unset example_env;
                 errno := 75;
                 strerror := fun _ => "Value too large for defined data type";
                 user_cb := user_cb example_env |}
              NULL 1 "x" [] (set_cur_logopts 18 (@initial_state upstream_h))
              ltac:(vm_compute; discriminate) eq_refl eq_refl)
    as [(rest & pre & Hrest & _) _].
  exists rest. exact Hrest.
Defined.

(** ** The threshold and the severities *)

Lemma app_message_not_nil (pre : list event) (a b : event) : (pre ++ [a; b])%list <> [].
Proof. intros H. apply app_eq_nil in H as [_ H]. discriminate. Qed.

(** X9: the filter of the default callback is monotone: if a message at one
    severity is written under one threshold, then a message at that or a more
    urgent severity is written under that or any higher threshold, whatever
    the options, the domain and the message are. *)
Theorem sr_logv_filter_monotone {h : libsigrok_h} (e e' : environment)
    (cb_data cb_data' lvl lvl' : Z) (format format' : string) (args args' : va_list)
    (s s' : state) :
  trace (sr_logv e cb_data lvl format args s) <> [] ->
  lvl' <= lvl ->
  cur_loglevel s <= cur_loglevel s' ->
  trace (sr_logv e' cb_data' lvl' format' args' s') <> [].
Proof.
  intros Hshown Hl Ht.
  assert (Hpass : lvl <= cur_loglevel s).
  { destruct (Z_le_gt_dec lvl (cur_loglevel s)) as [Hle|Hgt]; [exact Hle|].
    rewrite sr_logv_hidden in Hshown by lia. now contradiction Hshown. }
  destruct (sr_logv_shown e' cb_data' lvl' format' args' s' ltac:(lia)) as [pre Hpre].
  rewrite Hpre. apply app_message_not_nil.
Qed.

Lemma sr_logv_filter_monotone_witness :
  let s := @initial_state upstream_h in
  let s' := set_cur_loglevel 4 s in
  trace (@sr_logv upstream_h example_env NULL 1 "y" [] s') <> [].
Proof.
  apply (@sr_logv_filter_monotone upstream_h example_env example_env NULL NULL 2 1
           "x" "y" [] [] (@initial_state upstream_h)
           (set_cur_loglevel 4 (@initial_state upstream_h)));
    vm_compute; discriminate.
Defined.

(** X10: with the default callback and the levels in their order, the
    threshold NONE silences [sr_spew], [sr_dbg], [sr_info], [sr_warn] and
    [sr_err], each returning SR_OK, and under the threshold SPEW each of the
    five writes its message. *)
Theorem threshold_NONE_and_SPEW {h : libsigrok_h} (e : environment)
    (format : string) (args : va_list) (s : state) :
  SR_LOG_NONE < SR_LOG_ERR -> SR_LOG_ERR <= SR_LOG_WARN -> SR_LOG_WARN <= SR_LOG_INFO ->
  SR_LOG_INFO <= SR_LOG_DBG -> SR_LOG_DBG <= SR_LOG_SPEW ->
  sr_log_cb s = cb_sr_logv ->
  let emitters := [sr_spew e; sr_dbg e; sr_info e; sr_warn e; sr_err e] in
  (cur_loglevel s = SR_LOG_NONE ->
   Forall (fun emit => emit format args s = (SR_OK, s, [])) emitters) /\
  (cur_loglevel s = SR_LOG_SPEW ->
   Forall (fun emit => exists pre, trace (emit format args s) =
             (pre ++ [ev_stderr (vformat format args); ev_stderr (String "010" "")])%list)
     emitters).
Proof.
  intros H1 H2 H3 H4 H5 Hcb. cbv zeta. split; intros Hcur;
    repeat (apply Forall_cons || apply Forall_nil);
    unfold sr_spew, sr_dbg, sr_info, sr_warn, sr_err, call_sr_log_cb; rewrite Hcb;
    (apply sr_logv_hidden || apply sr_logv_shown); lia.
Qed.

Lemma threshold_NONE_and_SPEW_witness :
  let s := set_cur_loglevel 0 (@initial_state upstream_h) in
  @sr_err upstream_h example_env "x" [] s = (0, s, []).
Proof.
  pose proof (proj1 (@threshold_NONE_and_SPEW upstream_h example_env "x" []
                       (set_cur_loglevel 0 (@initial_state upstream_h))
                       ltac:(vm_compute; reflexivity) ltac:(vm_compute; discriminate)
                       ltac:(vm_compute; discriminate) ltac:(vm_compute; discriminate)
                       ltac:(vm_compute; discriminate) eq_refl) eq_refl) as HF.
  cbv zeta.
  apply (proj1 (Forall_forall _ _) HF (@sr_err upstream_h example_env)).
  simpl. tauto.
Defined.

(** X14: [sr_log] takes any level: with the default callback, a message it is
    given at level NONE or below is written under every threshold a setter
    accepts, the threshold NONE included. *)
Theorem sr_log_at_NONE_always_written {h : libsigrok_h} (e : environment) (lvl : Z)
    (format : string) (args : va_list) (s : state) :
  sr_log_cb s = cb_sr_logv ->
  SR_LOG_NONE <= cur_loglevel s ->
  lvl <= SR_LOG_NONE ->
  exists pre, trace (sr_log e lvl format args s) =
    (pre ++ [ev_stderr (vformat format args); ev_stderr (String "010" "")])%list.
Proof.
  intros Hcb Hcur Hlvl. unfold sr_log, call_sr_log_cb. rewrite Hcb.
  apply sr_logv_shown. lia.
Qed.

Lemma sr_log_at_NONE_always_written_witness :
  let s := final (@sr_log_loglevel_set upstream_h example_env 0 (@initial_state upstream_h)) in
  exists pre, trace (@sr_log upstream_h example_env 0 "x" [] s) =
    (pre ++ [ev_stderr "x"; ev_stderr (String "010" "")])%list.
Proof.
  apply (@sr_log_at_NONE_always_written upstream_h example_env 0 "x" []
           (final (@sr_log_loglevel_set upstream_h example_env 0 (@initial_state upstream_h))));
    [reflexivity | vm_compute; discriminate | vm_compute; discriminate].
Defined.

(** ** The statics over any sequence of calls *)

Lemma emission_final {h : libsigrok_h} (e : environment) (format : string) (args : va_list)
    (s : state) :
  final (sr_spew e format args s) = s /\ final (sr_dbg e format args s) = s /\
  final (sr_info e format args s) = s /\ final (sr_warn e format args s) = s /\
  final (sr_err e format args s) = s /\
  forall lvl, final (sr_log e lvl format args s) = s.
Proof.
  unfold sr_spew, sr_dbg, sr_info, sr_warn, sr_err, sr_log.
  repeat split; try intros lvl; apply call_sr_log_cb_final.
Qed.

(** X12: each static has one way to change: the level changes only in
    [sr_log_loglevel_set], the options only in [sr_log_logopts_set], the
    domain only in [sr_log_logdomain_set], the callback and its data only in
    [sr_log_callback_set] and [sr_log_callback_set_default], and the heap only
    in [sr_log_logdomain_get] (and by the stores of the application); every
    other call, the emissions and the rejected calls included, leaves them as
    they were. *)
Theorem statics_change_only_in_their_setter {h : libsigrok_h} (e : environment)
    (c : api_call) (s : state) :
  let s' := run_call e c s in
  ((forall L, c <> call_loglevel_set L) -> cur_loglevel s' = cur_loglevel s) /\
  ((forall m, c <> call_logopts_set m) -> cur_logopts s' = cur_logopts s) /\
  ((forall d, c <> call_logdomain_set d) -> sr_log_domain s' = sr_log_domain s) /\
  ((forall f d, c <> call_callback_set f d) -> c <> call_callback_set_default ->
   sr_log_cb s' = sr_log_cb s /\ sr_log_cb_data s' = sr_log_cb_data s) /\
  (c <> call_logdomain_get -> (forall p i ch, c <> call_poke p i ch) -> heap s' = heap s).
Proof.
  cbv zeta.
  destruct c as [L| |m| |d| |f d| |lvl fmt a|fmt a|fmt a|fmt a|fmt a|fmt a|p i ch];
    cbn [run_call];
    try (destruct (emission_final e fmt a s) as (E1 & E2 & E3 & E4 & E5 & E6);
         rewrite ?E1, ?E2, ?E3, ?E4, ?E5, ?E6);
    try (destruct (sr_log_loglevel_set_cases e L s) as [[_ Hf]|[_ Hf]]; rewrite Hf);
    try (destruct (sr_log_logopts_set_cases e m s) as [[_ Hf]|[_ Hf]]; rewrite Hf);
    try (rewrite sr_log_logdomain_set_cases; destruct d as [text|]);
    try (rewrite sr_log_callback_set_cases; destruct f as [f|]);
    repeat match goal with
           | |- _ /\ _ => split
           | |- _ -> _ => intro
           end;
    try reflexivity;
    exfalso;
    match goal with
    | H : _ |- _ => solve [eapply H; reflexivity]
    end.
Qed.

Lemma statics_in_range_step {h : libsigrok_h} (e : environment) (c : api_call) (s : state) :
  statics_in_range s -> statics_in_range (run_call e c s).
Proof.
  intros (Hl & Ho & Hb & Hd).
  destruct c as [L| |m| |d| |f d| |lvl fmt a|fmt a|fmt a|fmt a|fmt a|fmt a|p i ch];
    cbn [run_call];
    try (destruct (emission_final e fmt a s) as (E1 & E2 & E3 & E4 & E5 & E6);
         rewrite ?E1, ?E2, ?E3, ?E4, ?E5, ?E6; repeat split; tauto).
  - destruct (sr_log_loglevel_set_cases e L s) as [[HL Hf]|[_ Hf]]; rewrite Hf;
      repeat split; cbn [set_cur_loglevel cur_loglevel]; tauto.
  - repeat split; tauto.
  - destruct (sr_log_logopts_set_cases e m s) as [[Hm Hf]|[_ Hf]]; rewrite Hf;
      repeat split; cbn [set_cur_logopts cur_logopts]; tauto.
  - repeat split; tauto.
  - rewrite sr_log_logdomain_set_cases. destruct d as [text|]; [|repeat split; tauto].
    unfold statics_in_range. cbn [set_sr_log_domain cur_loglevel cur_logopts sr_log_domain].
    split; [exact Hl|]. split; [exact Ho|]. split.
    + now rewrite length_snprintf_s.
    + change LOGDOMAIN_MAXLEN with 30%nat at 1.
      rewrite (c_str_snprintf_s 29) by (rewrite Hb; unfold LOGDOMAIN_MAXLEN; lia).
      rewrite length_substring_0. unfold LOGDOMAIN_MAXLEN. lia.
  - destruct (sr_log_logdomain_get_copy s) as (_ & Hdom & _).
    unfold statics_in_range. rewrite Hdom.
    unfold sr_log_logdomain_get, g_strdup, bind, gets, final. simpl. tauto.
  - rewrite sr_log_callback_set_cases. destruct f as [f|]; repeat split; tauto.
  - repeat split; tauto.
  - repeat split; tauto.
Qed.

(** X11: from the initial state, after any sequence of calls of the functions
    of log.c with any arguments (and of stores of the application into the
    copies it was given), the level is one [sr_log_loglevel_set] accepts, the
    options are a mask [sr_log_logopts_set] accepts, and the domain buffer
    still has its 31 bytes with a NUL among the first 30: the domain is a
    terminated string shorter than LOGDOMAIN_MAXLEN. *)
Theorem reachable_statics_in_range {h : libsigrok_h} (e : environment) (cs : list api_call) :
  SR_LOG_NONE <= SR_LOG_WARN <= SR_LOG_SPEW ->
  SR_LOG_NOOPTS <= all_logopts ->
  statics_in_range (run_calls e cs initial_state).
Proof.
  intros Hlvl Hopts.
  assert (Hinit : statics_in_range initial_state).
  { unfold statics_in_range, initial_state.
    cbn [cur_loglevel cur_logopts sr_log_domain].
    repeat split; try lia; vm_compute; lia. }
  revert Hinit. generalize initial_state as s.
  induction cs as [|c cs IH]; intros s Hs; [exact Hs|].
  cbn [run_calls]. apply IH. now apply statics_in_range_step.
Qed.

Lemma reachable_statics_in_range_witness :
  statics_in_range (h := upstream_h)
    (@run_calls upstream_h example_env
       [call_loglevel_set 9; call_logopts_set 6;
        call_logdomain_set (Some "01234567890123456789012345678901234567890123456789");
        call_logdomain_get; call_poke 0 3 "X"; call_loglevel_set 5; call_err "x" []]
       (@initial_state upstream_h)).
Proof.
  apply (@reachable_statics_in_range upstream_h example_env);
    [vm_compute; split; discriminate | vm_compute; discriminate].
Defined.

(** ** Installing a callback and going back to the default *)

(** X13: [sr_log_callback_set_default] after [sr_log_callback_set] undoes it:
    the state is the one [sr_log_callback_set_default] alone gives, which is
    the state before both calls when the default callback with NULL data was
    in place; and from then on every emission is the default callback's own,
    whatever callback had been installed. *)
Theorem callback_set_then_default {h : libsigrok_h} (e : environment)
    (f : sr_log_callback) (cb_data : Z) (s : state) :
  let s2 := final (sr_log_callback_set_default
                     (final (sr_log_callback_set e (Some f) cb_data s))) in
  s2 = final (sr_log_callback_set_default s) /\
  (sr_log_cb s = cb_sr_logv -> sr_log_cb_data s = NULL -> s2 = s) /\
  (forall lvl format args,
     sr_log e lvl format args s2 = sr_logv e NULL lvl format args s2) /\
  (forall format args,
     sr_err e format args s2 = sr_logv e NULL SR_LOG_ERR format args s2).
Proof.
  cbv zeta. split; [reflexivity|]. split.
  - intros Hcb Hdata. destruct s; simpl in *. subst. reflexivity.
  - split; reflexivity.
Qed.

Lemma callback_set_then_default_witness :
  let s := @initial_state upstream_h in
  (sr_log_cb s = cb_sr_logv /\ sr_log_cb_data s = NULL) /\
  final (@sr_log_callback_set_default upstream_h
           (final (@sr_log_callback_set upstream_h example_env (Some (cb_user 3)) 77 s))) = s.
Proof.
  split; [split; reflexivity|].
  exact (proj1 (proj2 (@callback_set_then_default upstream_h example_env (cb_user 3) 77
                         (@initial_state upstream_h))) eq_refl eq_refl).
Defined.

(** ** The copies of the domain *)

Lemma nth_poke_block_other (p q i : nat) (c : ascii) : forall hp,
  p <> q -> nth q (poke_block p i c hp) EmptyString = nth q hp EmptyString.
Proof.
  revert q. induction p as [|p IH]; intros q [|b hp] Hne; simpl; try reflexivity.
  - destruct q as [|q]; [lia | reflexivity].
  - destruct q as [|q]; [reflexivity | apply IH; lia].
Qed.

(** X4: every call of [sr_log_logdomain_get] returns a block of its own that
    holds the current domain, writes nothing and leaves the domain and the
    blocks returned before as they are: after two calls both copies read the
    domain, and a byte then stored through the first pointer changes neither
    the domain nor what the second pointer reads. *)
Theorem logdomain_copies_are_separate (i : nat) (c : ascii) (s : state) :
  let r1 := sr_log_logdomain_get s in
  let r2 := sr_log_logdomain_get (final r1) in
  let s3 := poke (result r1) i c (final r2) in
  result r1 <> result r2 /\
  trace r1 = [] /\ trace r2 = [] /\
  string_at (result r1) (final r2) = c_str (sr_log_domain s) /\
  string_at (result r2) (final r2) = c_str (sr_log_domain s) /\
  sr_log_domain s3 = sr_log_domain s /\
  string_at (result r2) s3 = c_str (sr_log_domain s).
Proof.
  cbv zeta.
  unfold sr_log_logdomain_get, g_strdup, bind, gets, result, final, trace, string_at, poke.
  cbn [fst snd heap set_heap sr_log_domain app].
  rewrite !length_app. cbn [List.length].
  split; [lia|]. split; [reflexivity|]. split; [reflexivity|].
  split; [|split; [|split; [reflexivity|]]].
  - rewrite app_nth1 by (rewrite length_app; simpl; lia).
    rewrite app_nth2 by lia. rewrite Nat.sub_diag. apply c_str_terminated.
  - rewrite app_nth2 by (rewrite length_app; simpl; lia).
    rewrite length_app. cbn [List.length].
    replace (Datatypes.length (heap s) + 1 - (Datatypes.length (heap s) + 1))%nat with 0%nat
      by lia.
    apply c_str_terminated.
  - rewrite nth_poke_block_other by lia.
    rewrite app_nth2 by (rewrite length_app; simpl; lia).
    rewrite length_app. cbn [List.length].
    replace (Datatypes.length (heap s) + 1 - (Datatypes.length (heap s) + 1))%nat with 0%nat
      by lia.
    apply c_str_terminated.
Qed.

(** ** The confirmation of a new domain *)

Lemma vformat_domain_set (d : string) :
  vformat "Log domain set to '%s'." [va_str d] = "Log domain set to '" ++ c_str d ++ "'.".
Proof. reflexivity. Qed.

(** X15: [sr_log_logdomain_set] with a text stores the domain before it
    confirms it: with the default callback the confirmation is written if the
    threshold is at least DEBUG, and its line is the timestamp, the new domain
    as prefix, the sentence that quotes the new domain, and a newline; below
    DEBUG the call writes nothing and still stores the domain. *)
Theorem logdomain_set_confirmation {h : libsigrok_h} (e : environment) (text : string)
    (s : state) :
  String.length (sr_log_domain s) = S LOGDOMAIN_MAXLEN ->
  sr_log_cb s = cb_sr_logv ->
  let r := sr_log_logdomain_set e (Some text) s in
  let d := substring 0 29 (c_str text) in
  result r = SR_OK /\
  c_str (sr_log_domain (final r)) = d /\
  (SR_LOG_DBG <= cur_loglevel s ->
   stderr_text (trace r) =
   stderr_text (timestamp_events e (cur_logopts s)) ++
   d ++ ("Log domain set to '" ++ d ++ "'.") ++ String "010" "") /\
  (cur_loglevel s < SR_LOG_DBG -> trace r = []).
Proof.
  intros Hlen Hcb. cbv zeta. rewrite sr_log_logdomain_set_final.
  unfold result, final, trace. cbn [fst snd].
  assert (Hc : c_str (snprintf_s (sr_log_domain s) LOGDOMAIN_MAXLEN text) =
               substring 0 29 (c_str text))
    by (apply (c_str_snprintf_s 29); rewrite Hlen; unfold LOGDOMAIN_MAXLEN; lia).
  split; [reflexivity|]. split; [exact Hc|].
  unfold sr_dbg, call_sr_log_cb. cbn [sr_log_cb set_sr_log_domain]. rewrite Hcb.
  split.
  - intros Hdbg. rewrite sr_logv_eq.
    cbn [cur_loglevel cur_logopts sr_log_domain].
    replace (SR_LOG_DBG >? cur_loglevel s) with false
      by (symmetry; rewrite Z.gtb_ltb; apply Z.ltb_ge; lia).
    cbv zeta. cbn [snd].
    rewrite stderr_text_app, stderr_text_message, vformat_domain_set.
    cbn [cur_logopts sr_log_domain set_sr_log_domain]. now rewrite Hc.
  - intros Hlow.
    rewrite sr_logv_hidden by (cbn [cur_loglevel set_sr_log_domain]; lia). reflexivity.
Qed.

Lemma logdomain_set_confirmation_witness :
  let s := set_cur_loglevel 4 (@initial_state upstream_h) in
  (String.length (sr_log_domain s) = S LOGDOMAIN_MAXLEN /\ sr_log_cb s = cb_sr_logv /\
   @SR_LOG_DBG upstream_h <= cur_loglevel s) /\
  stderr_text (trace (@sr_log_logdomain_set upstream_h example_env (Some "la8: ") s)) =
  "la8: Log domain set to 'la8: '." ++ String "010" "".
Proof.
  split; [split; [reflexivity | split; [reflexivity | vm_compute; discriminate]]|].
  apply (@logdomain_set_confirmation upstream_h example_env "la8: "
           (set_cur_loglevel 4 (@initial_state upstream_h)) eq_refl eq_refl).
  vm_compute; discriminate.
Defined.
